(** * NuSTAR solar pointing: sky position and roll angle

    A shallow embedding of the two functions of the notebook
    [setup_pointing/NuSTAR Sun Pointing Example.ipynb],
    [get_sky_position] and [get_nustar_roll], and of the two usage cells.

    Conventions of the embedding.
    - numpy's float64 arithmetic is read as arithmetic over the real
      numbers [R]: rounding, infinities and NaN are not represented.
      The one place where rounding decides the outcome, the range of the
      roll, is also given in binary64 ([get_nustar_roll_f64]).
    - A 2-dimensional array has at least one row: the embedding has no
      array of shape (0, n).
    - An [ndarray] is a 0-, 1- or 2-dimensional array, a 2-dimensional one
      being the list of its rows.
    - A Python value handed around by the code is either a plain [ndarray]
      or an astropy [Quantity], an array tagged with a unit.
    - A Python exception is the [Raise] branch of [result].
    - sunpy's [parse_time] and [solar_north] and astropy's [Time] and
      [get_sun] are the fields of a record of collaborators. *)

From Stdlib Require Import Reals Lra Psatz ZArith Zfloor List String Bool Lia Floats Machin.
Import ListNotations.
Local Open Scope R_scope.

(** ** Exceptions *)

Inductive exn : Type :=
| ValueError_parse_time      (* sunpy.time.parse_time cannot read the time *)
| ValueError_shapes          (* numpy: shapes not aligned, or not broadcastable *)
| UnitConversionError.       (* astropy.units: incompatible units *)

Inductive result (A : Type) : Type :=
| Ok (a : A)
| Raise (e : exn).
Arguments Ok {A} a.
Arguments Raise {A} e.

Definition bind {A B : Type} (r : result A) (k : A -> result B) : result B :=
  match r with
  | Ok a => k a
  | Raise e => Raise e
  end.

Notation "x <- r ;; k" := (bind r (fun x => k))
  (at level 61, r at next level, right associativity).

Fixpoint all_ok {A : Type} (l : list (result A)) : result (list A) :=
  match l with
  | [] => Ok []
  | r :: l' => x <- r ;; xs <- all_ok l' ;; Ok (x :: xs)
  end.

(** ** Units (astropy.units) *)

Module Units.

Inductive unit : Type :=
| deg | rad | arcmin | arcsec      (* angles *)
| m                                (* a length, standing for any unit that is not an angle *)
| dimensionless_unscaled.

Inductive physical_type : Type := angle | length | dimensionless.

Definition physical_type_of (u : unit) : physical_type :=
  match u with
  | deg | rad | arcmin | arcsec => angle
  | m => length
  | dimensionless_unscaled => dimensionless
  end.

Definition physical_type_eqb (p q : physical_type) : bool :=
  match p, q with
  | angle, angle | length, length | dimensionless, dimensionless => true
  | _, _ => false
  end.

Definition is_angle (u : unit) : bool :=
  physical_type_eqb (physical_type_of u) angle.

(** The size of one [u], in the reference unit of its physical type
    (degrees for the angles). *)
Definition scale (u : unit) : R :=
  match u with
  | deg => 1
  | rad => 180 / PI
  | arcmin => / 60
  | arcsec => / 3600
  | m => 1
  | dimensionless_unscaled => 1
  end.

(** [get_converter from to]: the factor taking a value in [from] to a value
    in [to]; [None] stands for astropy's [UnitsError]. *)
Definition get_converter (from to : unit) : option R :=
  if physical_type_eqb (physical_type_of from) (physical_type_of to)
  then Some (scale from / scale to)
  else None.

(** An angle given in [u], expressed in degrees. *)
Definition to_deg (u : unit) (x : R) : R := x * (scale u / scale deg).

End Units.
Import Units.

(** Degrees to radians: what [.cgs] does to an [Angle] held in degrees, and
    what [np.cos] and [np.sin] do to a [Quantity] in degrees before the
    function is applied. *)
Definition deg2rad (x : R) : R := x * (PI / 180).

(** ** Arrays (numpy) *)

Inductive ndarray : Type :=
| Arr0 (x : R)                      (* shape ()    *)
| Arr1 (v : list R)                 (* shape (n,)  *)
| Arr2 (rows : list (list R)).      (* shape (k,n) *)

Definition nrows (rows : list (list R)) : nat := List.length rows.
Definition ncols (rows : list (list R)) : nat := List.length (hd [] rows).

Definition map_arr (f : R -> R) (a : ndarray) : ndarray :=
  match a with
  | Arr0 x => Arr0 (f x)
  | Arr1 v => Arr1 (map f v)
  | Arr2 rows => Arr2 (map (map f) rows)
  end.

Fixpoint zip_with {A B C : Type} (f : A -> B -> C) (v : list A) (w : list B) : list C :=
  match v, w with
  | x :: v', y :: w' => f x y :: zip_with f v' w'
  | _, _ => []
  end.

Fixpoint inner (v w : list R) : R :=
  match v, w with
  | x :: v', y :: w' => x * y + inner v' w'
  | _, _ => 0
  end.

(** Row vector times matrix: the sum of the rows of [rows], each scaled by
    the matching component of [v]. *)
Fixpoint vec_mat (v : list R) (rows : list (list R)) (n : nat) : list R :=
  match v, rows with
  | x :: v', row :: rows' => zip_with Rplus (map (Rmult x) row) (vec_mat v' rows' n)
  | _, _ => repeat 0 n
  end.

(** [np.dot a b]. A 0-dimensional operand multiplies the other one; otherwise
    the last axis of [a] is contracted with the first axis of [b], and a
    length mismatch raises. *)
Definition np_dot (a b : ndarray) : result ndarray :=
  match a, b with
  | Arr0 x, _ => Ok (map_arr (Rmult x) b)
  | _, Arr0 y => Ok (map_arr (fun x => x * y) a)
  | Arr1 v, Arr1 w =>
      if Nat.eqb (List.length v) (List.length w) then Ok (Arr0 (inner v w))
      else Raise ValueError_shapes
  | Arr1 v, Arr2 rows =>
      if Nat.eqb (List.length v) (nrows rows) then Ok (Arr1 (vec_mat v rows (ncols rows)))
      else Raise ValueError_shapes
  | Arr2 rows, Arr1 w =>
      if Nat.eqb (ncols rows) (List.length w) then Ok (Arr1 (map (fun r => inner r w) rows))
      else Raise ValueError_shapes
  | Arr2 rows, Arr2 rows' =>
      if Nat.eqb (ncols rows) (nrows rows')
      then Ok (Arr2 (map (fun r => vec_mat r rows' (ncols rows')) rows))
      else Raise ValueError_shapes
  end.

(** Broadcasting along one axis: equal lengths pair up, a length-1 side is
    stretched, anything else raises. *)
Definition bcast {A B C : Type} (f : A -> B -> result C)
           (v : list A) (w : list B) : result (list C) :=
  if Nat.eqb (List.length v) (List.length w) then all_ok (zip_with f v w)
  else match v, w with
       | [x], _ => all_ok (map (f x) w)
       | _, [y] => all_ok (map (fun x => f x y) v)
       | _, _ => Raise ValueError_shapes
       end.

Definition bcast1 (f : R -> R -> R) : list R -> list R -> result (list R) :=
  bcast (fun x y => Ok (f x y)).

(** An elementwise binary ufunc with numpy's broadcasting. *)
Definition broadcast (f : R -> R -> R) (a b : ndarray) : result ndarray :=
  match a, b with
  | Arr0 x, _ => Ok (map_arr (f x) b)
  | _, Arr0 y => Ok (map_arr (fun x => f x y) a)
  | Arr1 v, Arr1 w => r <- bcast1 f v w ;; Ok (Arr1 r)
  | Arr1 v, Arr2 rows => r <- all_ok (map (bcast1 f v) rows) ;; Ok (Arr2 r)
  | Arr2 rows, Arr1 w => r <- all_ok (map (fun row => bcast1 f row w) rows) ;; Ok (Arr2 r)
  | Arr2 rows, Arr2 rows' => r <- bcast (bcast1 f) rows rows' ;; Ok (Arr2 r)
  end.

Definition is_zero (x : R) : bool := if Req_dec_T x 0 then true else false.

Definition all_zero (a : ndarray) : bool :=
  match a with
  | Arr0 x => is_zero x
  | Arr1 v => forallb is_zero v
  | Arr2 rows => forallb (forallb is_zero) rows
  end.

(** [np.mod] on reals: the remainder has the sign of the divisor.
    The code only divides by 360. *)
Definition np_mod (x y : R) : R := x - y * IZR (Zfloor (x / y)).

(** ** Python values: plain arrays and astropy quantities *)

Inductive pyarray : Type :=
| NdArray (a : ndarray)
| Quantity (a : ndarray) (u : unit).

Definition value (p : pyarray) : ndarray :=
  match p with NdArray a | Quantity a _ => a end.

Definition unit_of (p : pyarray) : option unit :=
  match p with NdArray _ => None | Quantity _ u => Some u end.

Definition with_unit (u : option unit) (a : ndarray) : pyarray :=
  match u with None => NdArray a | Some u => Quantity a u end.

(** [np.dot(p, b)] with [b] a plain array: the unit of [p] is kept. *)
Definition dot (p : pyarray) (b : ndarray) : result pyarray :=
  r <- np_dot (value p) b ;; Ok (with_unit (unit_of p) r).

(** [p * b] with [b] a plain array or a list of floats: the unit of [p] is kept. *)
Definition mul (p : pyarray) (b : ndarray) : result pyarray :=
  r <- broadcast Rmult (value p) b ;; Ok (with_unit (unit_of p) r).

(** The units of a two-argument ufunc such as [add] or [mod]: the second
    argument is converted to the unit of the first. A plain array next to a
    quantity is accepted when the quantity is dimensionless, or when the
    plain array is all zero, in which case it takes the quantity's unit.
    The result is (factor for the first argument, factor for the second,
    unit of the result). *)
Definition converters_and_unit (p q : pyarray) : result (R * R * option unit) :=
  match p, q with
  | NdArray _, NdArray _ => Ok (1, 1, None)
  | Quantity _ u1, Quantity _ u2 =>
      match get_converter u2 u1 with
      | Some k => Ok (1, k, Some u1)
      | None => Raise UnitConversionError
      end
  | Quantity _ u1, NdArray b =>
      match get_converter u1 dimensionless_unscaled with
      | Some k => Ok (k, 1, Some dimensionless_unscaled)
      | None => if all_zero b then Ok (1, 1, Some u1) else Raise UnitConversionError
      end
  | NdArray a, Quantity _ u2 =>
      match get_converter u2 dimensionless_unscaled with
      | Some k => Ok (1, k, Some dimensionless_unscaled)
      | None => if all_zero a then Ok (1, 1, Some u2) else Raise UnitConversionError
      end
  end.

Definition ufunc2 (f : R -> R -> R) (p q : pyarray) : result pyarray :=
  c <- converters_and_unit p q ;;
  let '(k1, k2, u) := c in
  r <- broadcast (fun x y => f (k1 * x) (k2 * y)) (value p) (value q) ;;
  Ok (with_unit u r).

Definition add : pyarray -> pyarray -> result pyarray := ufunc2 Rplus.
Definition mod_ : pyarray -> pyarray -> result pyarray := ufunc2 np_mod.

(** ** Times *)

Record datetime : Type := mk_datetime {
  year : Z; month : Z; day : Z;
  hour : Z; minute : Z; second : Z; microsecond : Z
}.

(** The [time] argument: "a datetime object or a string that looks like
    '2016-07-03T10:33:10'". *)
Inductive time_arg : Type :=
| TimeStr (s : string)
| TimeObj (d : datetime).

(** ** Collaborators *)

Record SkyCoord : Type := mk_SkyCoord { ra_deg : R; dec_deg : R }.

Record Collaborators : Type := {
  AstroTime : Type;
  (* sunpy.time.parse_time; [None] when it raises *)
  parse_time : time_arg -> option datetime;
  (* astropy.time.Time *)
  Time : datetime -> AstroTime;
  (* astropy.coordinates.get_sun *)
  get_sun : AstroTime -> SkyCoord;
  (* sunpy.sun.solar_north, the angle in degrees *)
  solar_north : time_arg -> R
}.

(** ** The two functions of the notebook *)

Section Pointing.

Variable C : Collaborators.

Definition rotMatrix (sun_np : R) : ndarray :=
  Arr2 [[cos sun_np; sin sun_np];
        [- sin sun_np; cos sun_np]].

Definition get_sky_position (time : time_arg) (offset : pyarray) : result pyarray :=
  match parse_time C time with
  | None => Raise ValueError_parse_time
  | Some start_date =>
      let astro_time := Time C start_date in
      let astro_sun_pos := get_sun C astro_time in
      let sun_np := deg2rad (solar_north C time) in
      let sun_pos := Quantity (Arr1 [ra_deg astro_sun_pos; dec_deg astro_sun_pos]) deg in
      let sun_pos_1 := dec_deg astro_sun_pos in
      delta_offset <- dot offset (rotMatrix sun_np) ;;
      delta_offset <- mul delta_offset (Arr1 [1 / cos (deg2rad sun_pos_1); 1]) ;;
      delta_offset <- mul delta_offset (Arr1 [-1; 1]) ;;
      add sun_pos delta_offset
  end.

Definition get_nustar_roll (time : time_arg) (angle : pyarray) : result pyarray :=
  match parse_time C time with
  | None => Raise ValueError_parse_time
  | Some start_date =>
      let astro_time := Time C start_date in
      let sun_np := Quantity (Arr0 (solar_north C time)) deg in
      s <- add sun_np angle ;;
      mod_ s (Quantity (Arr0 360) deg)
  end.

End Pointing.

(** ** Python's datetime arithmetic, as used by the second usage cell *)

Module PyDatetime.
Local Open Scope Z_scope.

Definition _MAXORDINAL : Z := 3652059.

Definition _DAYS_IN_MONTH : list Z := [-1; 31; 28; 31; 30; 31; 30; 31; 31; 30; 31; 30; 31].
Definition _DAYS_BEFORE_MONTH : list Z :=
  [-1; 0; 31; 59; 90; 120; 151; 181; 212; 243; 273; 304; 334].

Definition index (l : list Z) (i : Z) : Z := nth (Z.to_nat i) l 0.

Definition b2z (b : bool) : Z := if b then 1 else 0.

Definition _is_leap (y : Z) : bool :=
  (y mod 4 =? 0) && (negb (y mod 100 =? 0) || (y mod 400 =? 0)).

Definition _days_before_year (y : Z) : Z :=
  let y := y - 1 in
  y * 365 + y / 4 - y / 100 + y / 400.

Definition _days_before_month (y mo : Z) : Z :=
  index _DAYS_BEFORE_MONTH mo + b2z ((2 <? mo) && _is_leap y).

Definition _ymd2ord (y mo d : Z) : Z :=
  _days_before_year y + _days_before_month y mo + d.

Definition _DI400Y : Z := _days_before_year 401.
Definition _DI100Y : Z := _days_before_year 101.
Definition _DI4Y : Z := _days_before_year 5.

Definition _ord2ymd (n : Z) : Z * Z * Z :=
  let n := n - 1 in
  let n400 := n / _DI400Y in
  let n := n mod _DI400Y in
  let y := n400 * 400 + 1 in
  let n100 := n / _DI100Y in
  let n := n mod _DI100Y in
  let n4 := n / _DI4Y in
  let n := n mod _DI4Y in
  let n1 := n / 365 in
  let n := n mod 365 in
  let y := y + (n100 * 100 + n4 * 4 + n1) in
  if (n1 =? 4) || (n100 =? 4) then (y - 1, 12, 31)
  else
    let leapyear := (n1 =? 3) && (negb (n4 =? 24) || (n100 =? 3)) in
    let mo := Z.shiftr (n + 50) 5 in
    let preceding := index _DAYS_BEFORE_MONTH mo + b2z ((2 <? mo) && leapyear) in
    if n <? preceding
    then
      let mo := mo - 1 in
      let preceding := preceding - (index _DAYS_IN_MONTH mo + b2z ((mo =? 2) && leapyear)) in
      (y, mo, n - preceding + 1)
    else (y, mo, n - preceding + 1).

(** A [timedelta], kept normalised by its constructor:
    [0 <= seconds < 86400] and [0 <= microseconds < 1000000]. *)
Record timedelta : Type := mk_timedelta_raw {
  td_days : Z; td_seconds : Z; td_microseconds : Z
}.

Definition timedelta_of (days seconds microseconds : Z) : timedelta :=
  let s := seconds + microseconds / 1000000 in
  mk_timedelta_raw (days + s / 86400) (s mod 86400) (microseconds mod 1000000).

Definition _to_microseconds (t : timedelta) : Z :=
  (td_days t * 86400 + td_seconds t) * 1000000 + td_microseconds t.

Definition _divide_and_round (a b : Z) : Z :=
  let q := a / b in
  let r := (a mod b) * 2 in
  let greater_than_half := if 0 <? b then b <? r else r <? b in
  if greater_than_half || ((r =? b) && (q mod 2 =? 1)) then q + 1 else q.

(** [t * f] for a float [f] whose [as_integer_ratio()] is [(a, b)]. *)
Definition timedelta_mul_float (t : timedelta) (a b : Z) : timedelta :=
  timedelta_of 0 0 (_divide_and_round (_to_microseconds t * a) b).

Definition toordinal (d : datetime) : Z := _ymd2ord (year d) (month d) (day d).

(** [d1 - d2] *)
Definition datetime_sub (d1 d2 : datetime) : timedelta :=
  let secs1 := second d1 + minute d1 * 60 + hour d1 * 3600 in
  let secs2 := second d2 + minute d2 * 60 + hour d2 * 3600 in
  timedelta_of (toordinal d1 - toordinal d2) (secs1 - secs2)
               (microsecond d1 - microsecond d2).

(** [d + t]; [None] is Python's [OverflowError]. *)
Definition datetime_add (d : datetime) (t : timedelta) : option datetime :=
  let delta :=
    timedelta_of (toordinal d + td_days t)
                 (hour d * 3600 + minute d * 60 + second d + td_seconds t)
                 (microsecond d + td_microseconds t) in
  let h := td_seconds delta / 3600 in
  let rem := td_seconds delta mod 3600 in
  if (0 <? td_days delta) && (td_days delta <=? _MAXORDINAL)
  then
    let '(y, mo, dd) := _ord2ymd (td_days delta) in
    Some (mk_datetime y mo dd h (rem / 60) (rem mod 60) (td_microseconds delta))
  else None.

End PyDatetime.

(** ** The usage cells *)

Section Usage.

Variable C : Collaborators.

(** [offset = np.array([1000, 150]) * u.arcsec] and [angle = 90 * u.deg] *)
Definition offset : pyarray := Quantity (Arr1 [1000; 150]) arcsec.
Definition angle : pyarray := Quantity (Arr0 90) deg.

(** First cell: [aim_time = '2016-07-26T19:53:15.00']. *)
Definition aim_time_literal : time_arg := TimeStr "2016-07-26T19:53:15.00".

Definition usage_literal : result pyarray * result pyarray :=
  (get_sky_position C aim_time_literal offset,
   get_nustar_roll C aim_time_literal angle).

(** Second cell: the aim time is the middle of the dwell. [None] when one of
    the two strings does not parse or the sum overflows. *)
Definition dwell_start : time_arg := TimeStr "2016-07-26T19:22:10".
Definition dwell_end : time_arg := TimeStr "2016-07-26T20:24:20".

Definition aim_time_of_dwell (dwell_start dwell_end : time_arg) : option datetime :=
  match parse_time C dwell_start, parse_time C dwell_end with
  | Some start_date, Some end_date =>
      let dt := PyDatetime.datetime_sub end_date start_date in
      (* 0.5.as_integer_ratio() == (1, 2) *)
      PyDatetime.datetime_add start_date (PyDatetime.timedelta_mul_float dt 1 2)
  | _, _ => None
  end.

Definition usage_dwell : option (result pyarray * result pyarray) :=
  match aim_time_of_dwell dwell_start dwell_end with
  | Some aim_time =>
      Some (get_sky_position C (TimeObj aim_time) offset,
            get_nustar_roll C (TimeObj aim_time) angle)
  | None => None
  end.

End Usage.

(** ** A concrete set of collaborators

    The times of the notebook are read the way sunpy reads them, a datetime
    object is returned as it is, and the ephemeris is a fixed sample for the
    epoch of the notebook: the north-pole angle is the recorded roll minus
    the 90 degrees asked for, the position of the Sun is illustrative. *)

Definition notebook_parse_time (t : time_arg) : option datetime :=
  match t with
  | TimeObj d => Some d
  | TimeStr s =>
      if String.eqb s "2016-07-26T19:53:15.00" then Some (mk_datetime 2016 7 26 19 53 15 0)
      else if String.eqb s "2016-07-26T19:22:10" then Some (mk_datetime 2016 7 26 19 22 10 0)
      else if String.eqb s "2016-07-26T20:24:20" then Some (mk_datetime 2016 7 26 20 24 20 0)
      else if String.eqb s "2016-07-03T10:33:10" then Some (mk_datetime 2016 7 3 10 33 10 0)
      else None
  end.

Definition notebook_collaborators : Collaborators := {|
  AstroTime := datetime;
  parse_time := notebook_parse_time;
  Time := fun d => d;
  get_sun := fun _ => mk_SkyCoord (1263245 / 10000) (192527 / 10000);
  solar_north := fun _ => 88658844320891 / 10000000000000
|}.

(** ** Definitions used to state and prove the properties *)

(** The position of the Sun that [get_sky_position] starts from. *)
Definition sun_position (C : Collaborators) (time : time_arg) : option (R * R) :=
  match parse_time C time with
  | Some start_date =>
      let astro_sun_pos := get_sun C (Time C start_date) in
      Some (ra_deg astro_sun_pos, dec_deg astro_sun_pos)
  | None => None
  end.

(** The returned position minus the position of the Sun, when the result is
    one (RA, Dec) pair in degrees. *)
Definition sky_delta (C : Collaborators) (time : time_arg) (offset : pyarray)
  : option (R * R) :=
  match get_sky_position C time offset, sun_position C time with
  | Ok (Quantity (Arr1 [r; d]) deg), Some (r0, d0) => Some (r - r0, d - d0)
  | _, _ => None
  end.

(** The solar north-pole position angle, in radians. *)
Definition theta (C : Collaborators) (time : time_arg) : R :=
  deg2rad (solar_north C time).

(** A 2-component offset [(x, y)] in unit [u]. *)
Definition offset2 (x y : R) (u : unit) : pyarray := Quantity (Arr1 [x; y]) u.

(** The same collaborators with another solar-north function, and with
    another ephemeris. *)
Definition with_solar_north (C : Collaborators) (f : time_arg -> R) : Collaborators :=
  {| AstroTime := AstroTime C; parse_time := parse_time C; Time := Time C;
     get_sun := get_sun C; solar_north := f |}.

Definition with_ephemeris (C : Collaborators) (T : Type)
           (tm : datetime -> T) (gs : T -> SkyCoord) : Collaborators :=
  {| AstroTime := T; parse_time := parse_time C; Time := tm;
     get_sun := gs; solar_north := solar_north C |}.

Ltac run_pipeline :=
  cbv [dot mul add mod_ ufunc2 bind np_dot value unit_of with_unit rotMatrix
       nrows ncols List.length Nat.eqb hd vec_mat zip_with map map_arr repeat
       broadcast bcast1 bcast all_ok converters_and_unit offset2].

(** The delta that is added to the Sun's position, in the unit of the
    offset, exactly as the successive products leave it. *)
Definition delta_ra (C : Collaborators) (t : time_arg) (dec x y : R) : R :=
  (x * cos (theta C t) + (y * - sin (theta C t) + 0)) * (1 / cos (deg2rad dec)) * -1.

Definition delta_dec (C : Collaborators) (t : time_arg) (x y : R) : R :=
  (x * sin (theta C t) + (y * cos (theta C t) + 0)) * 1 * 1.

(** The RA component of the delta. *)
Definition ra_delta (C : Collaborators) (time : time_arg) (offset : pyarray) : option R :=
  option_map fst (sky_delta C time offset).

Definition is_vec2 (p : pyarray) : bool :=
  match value p with
  | Arr1 [_; _] => true
  | _ => false
  end.

(** What the second usage cell relies on from the collaborators: the three
    time strings of the notebook are read as written, a datetime object is
    returned as it is, and the north-pole angle is a function of the
    instant. *)
Definition reads_notebook_times (C : Collaborators) : Prop :=
  parse_time C dwell_start = Some (mk_datetime 2016 7 26 19 22 10 0)
  /\ parse_time C dwell_end = Some (mk_datetime 2016 7 26 20 24 20 0)
  /\ parse_time C aim_time_literal = Some (mk_datetime 2016 7 26 19 53 15 0).

Definition keeps_datetime (C : Collaborators) : Prop :=
  forall d : datetime, parse_time C (TimeObj d) = Some d.

Definition solar_north_of_instant (C : Collaborators) : Prop :=
  forall (t1 t2 : time_arg) (d : datetime),
    parse_time C t1 = Some d -> parse_time C t2 = Some d ->
    solar_north C t1 = solar_north C t2.

(** ** The roll in binary64

    [np.mod] on float64, as numpy's remainder loop computes it: the C
    [fmod], which is exact and has the sign of the dividend, moved by one
    divisor when its sign is not the divisor's. *)

Definition fmod (x y : float) : float :=
  match Prim2SF x, Prim2SF y with
  | S754_nan, _ | _, S754_nan => nan
  | S754_infinity _, _ => nan
  | _, S754_zero _ => nan
  | S754_zero _, _ => x
  | S754_finite _ _ _, S754_infinity _ => x
  | S754_finite sx mx ex, S754_finite _ my ey =>
      let e := Z.min ex ey in
      let r := Z.modulo (Z.mul (Zpos mx) (Z.pow 2 (Z.sub ex e)))
                        (Z.mul (Zpos my) (Z.pow 2 (Z.sub ey e))) in
      match r with
      | Zpos p => SF2Prim (S754_finite sx p e)
      | _ => SF2Prim (S754_zero sx)
      end
  end.

Definition np_mod_f64 (a b : float) : float :=
  let mod_ := fmod a b in
  if PrimFloat.eqb b 0%float then mod_
  else if negb (PrimFloat.eqb mod_ 0%float) then
         (if Bool.eqb (PrimFloat.ltb b 0%float) (PrimFloat.ltb mod_ 0%float)
          then mod_ else PrimFloat.add mod_ b)
       else if get_sign b then neg_zero else zero.

(** [get_nustar_roll] in binary64, for a time that parses and an angle
    given in degrees: [solar_north(time).deg * u.deg] keeps the number, and
    the sum and [np.mod] are between quantities of one unit, so that no
    conversion factor comes in. The arguments are [solar_north(time).deg]
    and the angle in degrees. *)
Definition get_nustar_roll_f64 (solar_north_deg angle_deg : float) : float :=
  np_mod_f64 (PrimFloat.add solar_north_deg angle_deg) 360%float.

(** A 2-D offset, one row [[x; y]] per pair. *)
Definition rows_of (l : list (R * R)) : list (list R) :=
  map (fun p => [fst p; snd p]) l.

(** Microseconds since midnight, and the ranges of the fields of a time of
    day. *)
Definition time_of_day_us (d : datetime) : Z :=
  ((hour d * 3600 + minute d * 60 + second d) * 1000000 + microsecond d)%Z.

Definition valid_time (d : datetime) : Prop :=
  (0 <= hour d < 24 /\ 0 <= minute d < 60 /\ 0 <= second d < 60
   /\ 0 <= microsecond d < 1000000)%Z.

(** The date of [d] is a date of the calendar: its ordinal is in range and
    names the same year, month and day, as for every Python [datetime]. *)
Definition calendar_date (d : datetime) : Prop :=
  (0 < PyDatetime.toordinal d <= PyDatetime._MAXORDINAL)%Z
  /\ PyDatetime._ord2ymd (PyDatetime.toordinal d) = (year d, month d, day d).

Definition same_date (d1 d2 : datetime) : Prop :=
  year d1 = year d2 /\ month d1 = month d2 /\ day d1 = day d2.

(** * Properties *)

Example ord_2016_07_26 : PyDatetime._ord2ymd (PyDatetime._ymd2ord 2016 7 26) = (2016, 7, 26)%Z.
Proof. vm_compute. reflexivity. Qed.

Example aim_time_notebook :
  aim_time_of_dwell notebook_collaborators dwell_start dwell_end
  = Some (mk_datetime 2016 7 26 19 53 15 0).
Proof. vm_compute. reflexivity. Qed.

(** ** Unit conversion *)

Lemma get_converter_angle (u : unit) :
  is_angle u = true -> get_converter u deg = Some (scale u / scale deg).
Proof. destruct u; simpl; intros H; try discriminate H; reflexivity. Qed.

Lemma get_converter_not_angle (u : unit) :
  is_angle u = false -> get_converter u deg = None.
Proof. destruct u; simpl; intros H; try discriminate H; reflexivity. Qed.

Lemma deg_not_dimensionless : get_converter deg dimensionless_unscaled = None.
Proof. reflexivity. Qed.

(** ** The pipeline of [get_sky_position] on a 1-D offset of two components *)

Lemma delta_ra_eq C t dec x y :
  delta_ra C t dec x y
  = - (x * cos (theta C t) - y * sin (theta C t)) / cos (deg2rad dec).
Proof. unfold delta_ra, Rdiv. ring. Qed.

Lemma delta_dec_eq C t x y :
  delta_dec C t x y = x * sin (theta C t) + y * cos (theta C t).
Proof. unfold delta_dec. ring. Qed.

Lemma get_sky_position_quantity2 C t d x y u :
  parse_time C t = Some d ->
  get_sky_position C t (offset2 x y u)
  = match get_converter u deg with
    | Some k =>
        let sun := get_sun C (Time C d) in
        Ok (Quantity (Arr1 [1 * ra_deg sun + k * delta_ra C t (dec_deg sun) x y;
                            1 * dec_deg sun + k * delta_dec C t x y]) deg)
    | None => Raise UnitConversionError
    end.
Proof.
  intros Hp. unfold get_sky_position. rewrite Hp. run_pipeline.
  destruct (get_converter u deg); reflexivity.
Qed.

Lemma get_sky_position_plain2 C t d x y :
  parse_time C t = Some d ->
  get_sky_position C t (NdArray (Arr1 [x; y]))
  = let sun := get_sun C (Time C d) in
    if is_zero (delta_ra C t (dec_deg sun) x y) && (is_zero (delta_dec C t x y) && true)
    then Ok (Quantity (Arr1 [1 * ra_deg sun + 1 * delta_ra C t (dec_deg sun) x y;
                             1 * dec_deg sun + 1 * delta_dec C t x y]) deg)
    else Raise UnitConversionError.
Proof.
  intros Hp. unfold get_sky_position. rewrite Hp. run_pipeline.
  rewrite deg_not_dimensionless. cbv [all_zero forallb].
  fold (theta C t).
  fold (delta_ra C t (dec_deg (get_sun C (Time C d))) x y).
  fold (delta_dec C t x y).
  cbv zeta.
  destruct (is_zero (delta_ra C t (dec_deg (get_sun C (Time C d))) x y)
            && (is_zero (delta_dec C t x y) && true)); reflexivity.
Qed.

Lemma Ok_vec2_eq (a b a' b' : R) (u : unit) :
  a = a' -> b = b' ->
  @Ok pyarray (Quantity (Arr1 [a; b]) u) = Ok (Quantity (Arr1 [a'; b']) u).
Proof. intros -> ->. reflexivity. Qed.

Lemma sky_position_angle2 C t d x y u :
  parse_time C t = Some d -> is_angle u = true ->
  let sun := get_sun C (Time C d) in
  get_sky_position C t (offset2 x y u)
  = Ok (Quantity
          (Arr1 [ra_deg sun
                 + to_deg u (- (x * cos (theta C t) - y * sin (theta C t))
                             / cos (deg2rad (dec_deg sun)));
                 dec_deg sun
                 + to_deg u (x * sin (theta C t) + y * cos (theta C t))]) deg).
Proof.
  intros Hp Hu sun.
  rewrite (get_sky_position_quantity2 C t d x y u Hp), (get_converter_angle u Hu).
  cbv zeta. fold sun.
  rewrite delta_ra_eq, delta_dec_eq. unfold to_deg.
  apply Ok_vec2_eq; unfold Rdiv; ring.
Qed.

Lemma sky_delta_angle2 C t d x y u :
  parse_time C t = Some d -> is_angle u = true ->
  sky_delta C t (offset2 x y u)
  = Some (to_deg u (- (x * cos (theta C t) - y * sin (theta C t))
                    / cos (deg2rad (dec_deg (get_sun C (Time C d))))),
          to_deg u (x * sin (theta C t) + y * cos (theta C t))).
Proof.
  intros Hp Hu. unfold sky_delta, sun_position.
  rewrite (sky_position_angle2 C t d x y u Hp Hu), Hp. cbv zeta.
  f_equal. f_equal; ring.
Qed.

(** ** Sky position *)

(** C1: for a time that parses and a 2-component offset [(x, y)] in an
    angular unit, [get_sky_position] returns the Sun's (RA, Dec) plus the
    delta [(-(x cos th - y sin th) / cos Dec, x sin th + y cos th)], th being
    the solar north-pole angle: the offset is rotated counter-clockwise by
    th, its RA component divided by cos Dec and negated, and the delta,
    brought from the unit of the offset to degrees, is added to the Sun's
    position. *)
Theorem get_sky_position_formula :
  forall (C : Collaborators) (t : time_arg) (d : datetime) (x y : R) (u : unit),
    parse_time C t = Some d ->
    is_angle u = true ->
    let sun := get_sun C (Time C d) in
    let th := theta C t in
    get_sky_position C t (offset2 x y u)
    = Ok (Quantity
            (Arr1 [ra_deg sun
                   + to_deg u (- (x * cos th - y * sin th) / cos (deg2rad (dec_deg sun)));
                   dec_deg sun
                   + to_deg u (x * sin th + y * cos th)]) deg).
Proof.
  intros C t d x y u Hp Hu sun th.
  exact (sky_position_angle2 C t d x y u Hp Hu).
Qed.

Lemma get_sky_position_formula_witness :
  get_sky_position notebook_collaborators aim_time_literal (offset2 1000 150 arcsec)
  = Ok (Quantity
          (Arr1 [1263245 / 10000
                 + to_deg arcsec
                     (- (1000 * cos (theta notebook_collaborators aim_time_literal)
                         - 150 * sin (theta notebook_collaborators aim_time_literal))
                      / cos (deg2rad (192527 / 10000)));
                 192527 / 10000
                 + to_deg arcsec
                     (1000 * sin (theta notebook_collaborators aim_time_literal)
                      + 150 * cos (theta notebook_collaborators aim_time_literal))]) deg).
Proof.
  apply (get_sky_position_formula notebook_collaborators aim_time_literal
           (mk_datetime 2016 7 26 19 53 15 0) 1000 150 arcsec); reflexivity.
Defined.

(** C2: for a time that parses, the zero offset gives exactly the Sun's
    ephemeris position. *)
Theorem get_sky_position_zero_offset :
  forall (C : Collaborators) (t : time_arg) (d : datetime) (u : unit),
    parse_time C t = Some d ->
    is_angle u = true ->
    get_sky_position C t (offset2 0 0 u)
    = Ok (Quantity (Arr1 [ra_deg (get_sun C (Time C d));
                          dec_deg (get_sun C (Time C d))]) deg).
Proof.
  intros C t d u Hp Hu.
  rewrite (sky_position_angle2 C t d 0 0 u Hp Hu). cbv zeta.
  apply Ok_vec2_eq; unfold to_deg, Rdiv; ring.
Qed.

Lemma get_sky_position_zero_offset_witness :
  get_sky_position notebook_collaborators aim_time_literal (offset2 0 0 arcsec)
  = Ok (Quantity (Arr1 [1263245 / 10000; 192527 / 10000]) deg).
Proof.
  apply (get_sky_position_zero_offset notebook_collaborators aim_time_literal
           (mk_datetime 2016 7 26 19 53 15 0) arcsec); reflexivity.
Defined.

(** C10: at a fixed time that parses, the delta (returned position minus
    the Sun's position) is a linear function of the offset: additive, and
    homogeneous for every scalar. *)
Theorem sky_delta_linear :
  forall (C : Collaborators) (t : time_arg) (d : datetime) (u : unit),
    parse_time C t = Some d ->
    is_angle u = true ->
    exists f : R -> R -> R * R,
      (forall x y, sky_delta C t (offset2 x y u) = Some (f x y))
      /\ (forall x1 y1 x2 y2,
             f (x1 + x2) (y1 + y2)
             = (fst (f x1 y1) + fst (f x2 y2), snd (f x1 y1) + snd (f x2 y2)))
      /\ (forall a x y,
             f (a * x) (a * y) = (a * fst (f x y), a * snd (f x y))).
Proof.
  intros C t d u Hp Hu.
  exists (fun x y =>
            (to_deg u (- (x * cos (theta C t) - y * sin (theta C t))
                       / cos (deg2rad (dec_deg (get_sun C (Time C d))))),
             to_deg u (x * sin (theta C t) + y * cos (theta C t)))).
  split; [| split].
  - intros x y. exact (sky_delta_angle2 C t d x y u Hp Hu).
  - intros x1 y1 x2 y2. cbn [fst snd]. unfold to_deg, Rdiv. f_equal; ring.
  - intros a x y. cbn [fst snd]. unfold to_deg, Rdiv. f_equal; ring.
Qed.

Lemma sky_delta_linear_witness :
  exists f : R -> R -> R * R,
    (forall x y, sky_delta notebook_collaborators aim_time_literal (offset2 x y arcsec)
                 = Some (f x y))
    /\ (forall x1 y1 x2 y2,
           f (x1 + x2) (y1 + y2)
           = (fst (f x1 y1) + fst (f x2 y2), snd (f x1 y1) + snd (f x2 y2)))
    /\ (forall a x y,
           f (a * x) (a * y) = (a * fst (f x y), a * snd (f x y))).
Proof.
  apply (sky_delta_linear notebook_collaborators aim_time_literal
           (mk_datetime 2016 7 26 19 53 15 0) arcsec); reflexivity.
Defined.

Lemma scale_angle_neq_0 (u : unit) : is_angle u = true -> scale u / scale deg <> 0.
Proof.
  pose proof PI_RGT_0 as HPI.
  destruct u; simpl; intros H; try discriminate H; unfold Rdiv;
    rewrite ?Rinv_1, ?Rmult_1_r.
  - lra.
  - apply Rmult_integral_contrapositive_currified; [lra |].
    apply Rinv_neq_0_compat; lra.
  - apply Rinv_neq_0_compat; lra.
  - apply Rinv_neq_0_compat; lra.
Qed.

Lemma ra_reflection_gap (u : unit) (x y c s cd : R) :
  to_deg u (- (- x * c - y * s) / cd) + to_deg u (- (x * c - y * s) / cd)
  = 2 * (y * s) * (/ cd * (scale u / scale deg)).
Proof. unfold to_deg, Rdiv. ring. Qed.

Lemma notebook_theta_range :
  0 < theta notebook_collaborators aim_time_literal < PI / 2.
Proof.
  pose proof PI_RGT_0 as HPI.
  unfold theta, deg2rad. cbn [solar_north notebook_collaborators]. lra.
Qed.

Lemma notebook_sin_theta_pos : 0 < sin (theta notebook_collaborators aim_time_literal).
Proof.
  pose proof PI_RGT_0 as HPI. pose proof notebook_theta_range as [H0 H1].
  apply sin_gt_0; lra.
Qed.

Lemma notebook_cos_dec_pos : 0 < cos (deg2rad (192527 / 10000)).
Proof.
  pose proof PI_RGT_0 as HPI.
  apply cos_gt_0; unfold deg2rad; lra.
Qed.

(** C3, as stated, fails: with the north-pole angle of the notebook's epoch
    the RA delta of the offset (-1000, 150) arcsec is not the opposite of
    the RA delta of (1000, 150) arcsec. *)
Lemma ra_reflection_counterexample :
  ra_delta notebook_collaborators aim_time_literal (offset2 (Ropp 1000) 150 arcsec)
  <> option_map Ropp
       (ra_delta notebook_collaborators aim_time_literal (offset2 1000 150 arcsec)).
Proof.
  unfold ra_delta.
  rewrite (sky_delta_angle2 notebook_collaborators aim_time_literal
             (mk_datetime 2016 7 26 19 53 15 0) (Ropp 1000) 150 arcsec eq_refl eq_refl).
  rewrite (sky_delta_angle2 notebook_collaborators aim_time_literal
             (mk_datetime 2016 7 26 19 53 15 0) 1000 150 arcsec eq_refl eq_refl).
  cbn [option_map fst get_sun notebook_collaborators dec_deg].
  intros H. injection H as H.
  pose proof (ra_reflection_gap arcsec 1000 150
                (cos (theta notebook_collaborators aim_time_literal))
                (sin (theta notebook_collaborators aim_time_literal))
                (cos (deg2rad (192527 / 10000)))) as G.
  rewrite H in G.
  pose proof notebook_sin_theta_pos as Hs.
  pose proof (Rinv_0_lt_compat _ notebook_cos_dec_pos) as Hc.
  assert (Hk : 0 < scale arcsec / scale deg) by (simpl; lra).
  assert (Hpos : 0 < 2 * (150 * sin (theta notebook_collaborators aim_time_literal))
                     * (/ cos (deg2rad (192527 / 10000)) * (scale arcsec / scale deg))).
  { apply Rmult_lt_0_compat; [lra |]. apply Rmult_lt_0_compat; assumption. }
  lra.
Qed.

(** C3, amended: the RA deltas of [(-x, y)] and [(x, y)] add up to
    [2 y sin th / cos Dec] (brought to degrees), so that, where
    [cos Dec <> 0], negating the x-component of the offset negates the RA
    delta exactly when [y sin th = 0]. *)
Theorem ra_reflection_iff :
  forall (C : Collaborators) (t : time_arg) (d : datetime) (x y : R) (u : unit),
    parse_time C t = Some d ->
    is_angle u = true ->
    cos (deg2rad (dec_deg (get_sun C (Time C d)))) <> 0 ->
    exists a b : R,
      ra_delta C t (offset2 (- x) y u) = Some a
      /\ ra_delta C t (offset2 x y u) = Some b
      /\ a + b = to_deg u (2 * y * sin (theta C t)
                           / cos (deg2rad (dec_deg (get_sun C (Time C d)))))
      /\ (a = - b <-> y * sin (theta C t) = 0).
Proof.
  intros C t d x y u Hp Hu Hcd.
  unfold ra_delta.
  rewrite (sky_delta_angle2 C t d (- x) y u Hp Hu), (sky_delta_angle2 C t d x y u Hp Hu).
  cbn [option_map fst].
  set (cd := cos (deg2rad (dec_deg (get_sun C (Time C d))))) in *.
  set (c := cos (theta C t)). set (s := sin (theta C t)).
  eexists; eexists. split; [reflexivity | split; [reflexivity |]].
  pose proof (ra_reflection_gap u x y c s cd) as G.
  split.
  - rewrite G. unfold to_deg, Rdiv. ring.
  - assert (Hne : / cd * (scale u / scale deg) <> 0).
    { apply Rmult_integral_contrapositive_currified;
        [apply Rinv_neq_0_compat; exact Hcd | apply scale_angle_neq_0; exact Hu]. }
    split; intros H.
    + rewrite H in G. rewrite Rplus_opp_l in G. symmetry in G.
      apply Rmult_integral in G. destruct G as [G | G]; [lra | contradiction].
    + assert (E : 2 * (y * s) * (/ cd * (scale u / scale deg)) = 0)
        by (rewrite H; ring).
      rewrite E in G. lra.
Qed.

Lemma ra_reflection_iff_witness :
  exists a b : R,
    ra_delta notebook_collaborators aim_time_literal (offset2 (Ropp 1000) 0 arcsec) = Some a
    /\ ra_delta notebook_collaborators aim_time_literal (offset2 1000 0 arcsec) = Some b
    /\ a + b = to_deg arcsec (2 * 0 * sin (theta notebook_collaborators aim_time_literal)
                              / cos (deg2rad (192527 / 10000)))
    /\ (a = - b <-> 0 * sin (theta notebook_collaborators aim_time_literal) = 0).
Proof.
  apply (ra_reflection_iff notebook_collaborators aim_time_literal
           (mk_datetime 2016 7 26 19 53 15 0) 1000 0 arcsec);
    [reflexivity | reflexivity |].
  apply Rgt_not_eq. exact notebook_cos_dec_pos.
Defined.

(** ** Roll angle *)

Lemma np_mod_range (x m : R) : 0 < m -> 0 <= np_mod x m < m.
Proof.
  intros Hm. unfold np_mod.
  destruct (Zfloor_bound (x / m)) as [Hlo Hhi].
  assert (Hx : x = m * (x / m)) by (field; lra).
  set (q := IZR (Zfloor (x / m))) in *.
  split.
  - assert (m * q <= m * (x / m)) by (apply Rmult_le_compat_l; lra). lra.
  - assert (m * (x / m) < m * (q + 1)) by (apply Rmult_lt_compat_l; lra). lra.
Qed.

Lemma np_mod_period (x m : R) : m <> 0 -> np_mod (x + m) m = np_mod x m.
Proof.
  intros Hm. unfold np_mod.
  replace ((x + m) / m) with (x / m + IZR 1) by (field; exact Hm).
  rewrite Zfloor_addz, plus_IZR. ring.
Qed.

Lemma np_mod_ext (x x' m m' : R) : x = x' -> m = m' -> np_mod x m = np_mod x' m'.
Proof. intros -> ->. reflexivity. Qed.

Lemma get_nustar_roll_quantity C t d a u :
  parse_time C t = Some d ->
  get_nustar_roll C t (Quantity (Arr0 a) u)
  = match get_converter u deg with
    | Some k => Ok (Quantity (Arr0 (np_mod (solar_north C t + k * a) 360)) deg)
    | None => Raise UnitConversionError
    end.
Proof.
  intros Hp. unfold get_nustar_roll. rewrite Hp. run_pipeline.
  destruct (get_converter u deg) as [k |]; [| reflexivity].
  run_pipeline. cbv [get_converter physical_type_of physical_type_eqb scale].
  do 3 f_equal. apply np_mod_ext; field.
Qed.

Lemma nustar_roll_angle C t d a u :
  parse_time C t = Some d -> is_angle u = true ->
  get_nustar_roll C t (Quantity (Arr0 a) u)
  = Ok (Quantity (Arr0 (np_mod (solar_north C t + to_deg u a) 360)) deg).
Proof.
  intros Hp Hu.
  rewrite (get_nustar_roll_quantity C t d a u Hp), (get_converter_angle u Hu).
  do 3 f_equal. apply np_mod_ext; [unfold to_deg; ring | reflexivity].
Qed.

(** In exact arithmetic the roll of a time that parses is the solar
    north-pole angle plus [a], less a whole number of turns, and is the one
    such value in [0, 360). *)
Lemma get_nustar_roll_exact_arithmetic :
  forall (C : Collaborators) (t : time_arg) (d : datetime) (a : R) (u : unit),
    parse_time C t = Some d ->
    is_angle u = true ->
    exists (r : R) (k : Z),
      get_nustar_roll C t (Quantity (Arr0 a) u) = Ok (Quantity (Arr0 r) deg)
      /\ r = solar_north C t + to_deg u a - 360 * IZR k
      /\ 0 <= r < 360.
Proof.
  intros C t d a u Hp Hu.
  exists (np_mod (solar_north C t + to_deg u a) 360),
         (Zfloor ((solar_north C t + to_deg u a) / 360)).
  split; [exact (nustar_roll_angle C t d a u Hp Hu) | split; [reflexivity |]].
  apply np_mod_range. lra.
Qed.

(** C4: in binary64 the roll is not always below 360. With a north-pole
    angle of 8.8658844320891 degrees (the roll recorded in the notebook,
    less 90) and the angle -8.865884432089102 degrees, the sum is
    -2^-49, [fmod] leaves it as it is, and adding the divisor rounds to
    360.0 exactly: [get_nustar_roll] returns 360.0, outside [0, 360). *)
Theorem get_nustar_roll_f64_returns_360 :
  PrimFloat.add 0x1.1bb55344be05ep+3%float (-0x1.1bb55344be05fp+3)%float
  = (-0x1p-49)%float
  /\ get_nustar_roll_f64 0x1.1bb55344be05ep+3%float (-0x1.1bb55344be05fp+3)%float
     = 360%float
  /\ PrimFloat.ltb
       (get_nustar_roll_f64 0x1.1bb55344be05ep+3%float (-0x1.1bb55344be05fp+3)%float)
       360%float = false.
Proof. repeat split; vm_compute; reflexivity. Qed.

(** C5: the roll is periodic in its angle argument, with period 360
    degrees. *)
Theorem get_nustar_roll_periodic :
  forall (C : Collaborators) (t : time_arg) (a : R),
    get_nustar_roll C t (Quantity (Arr0 (a + 360)) deg)
    = get_nustar_roll C t (Quantity (Arr0 a) deg).
Proof.
  intros C t a.
  destruct (parse_time C t) as [d |] eqn:Hp.
  - rewrite (nustar_roll_angle C t d (a + 360) deg Hp eq_refl),
            (nustar_roll_angle C t d a deg Hp eq_refl).
    do 3 f_equal.
    replace (solar_north C t + to_deg deg (a + 360))
      with (solar_north C t + to_deg deg a + 360)
      by (unfold to_deg; simpl; field).
    apply np_mod_period. lra.
  - unfold get_nustar_roll. rewrite Hp. reflexivity.
Qed.

(** C9: both functions hand the time to [solar_north] as it was given.
    For a time that parses, the roll is [mod(solar_north(time) + angle, 360)]
    with [solar_north] applied to the raw argument; the roll stays the same
    when [Time] and [get_sun] are replaced, and when the parsed date is
    another one. The sky position depends on [solar_north] only through
    its value at the raw argument, and it does use that value: for a
    2-component offset it is the Sun's position from [get_sun] at the parsed
    time, plus the offset rotated by [solar_north] of the raw argument. The
    parsed time reaches the result through [get_sun] alone: other
    collaborators that give the same Sun position and the same north-pole
    angle at the raw argument give the same sky position, whatever date they
    parse. *)
Theorem solar_north_takes_raw_time :
  forall (C : Collaborators) (t : time_arg) (d : datetime) (a : R) (u : unit),
    parse_time C t = Some d ->
    is_angle u = true ->
    get_nustar_roll C t (Quantity (Arr0 a) u)
    = Ok (Quantity (Arr0 (np_mod (solar_north C t + to_deg u a) 360)) deg)
    /\ (forall (T : Type) (tm : datetime -> T) (gs : T -> SkyCoord),
           get_nustar_roll (with_ephemeris C T tm gs) t (Quantity (Arr0 a) u)
           = get_nustar_roll C t (Quantity (Arr0 a) u))
    /\ (forall (C' : Collaborators) (d' : datetime),
           parse_time C' t = Some d' ->
           solar_north C' t = solar_north C t ->
           get_nustar_roll C' t (Quantity (Arr0 a) u)
           = get_nustar_roll C t (Quantity (Arr0 a) u))
    /\ (forall (f : time_arg -> R) (offset : pyarray),
           f t = solar_north C t ->
           get_sky_position (with_solar_north C f) t offset
           = get_sky_position C t offset)
    /\ (forall (x y : R) (v : unit),
           is_angle v = true ->
           get_sky_position C t (offset2 x y v)
           = Ok (Quantity
                   (Arr1 [ra_deg (get_sun C (Time C d))
                          + to_deg v (- (x * cos (deg2rad (solar_north C t))
                                         - y * sin (deg2rad (solar_north C t)))
                                      / cos (deg2rad (dec_deg (get_sun C (Time C d)))));
                          dec_deg (get_sun C (Time C d))
                          + to_deg v (x * sin (deg2rad (solar_north C t))
                                      + y * cos (deg2rad (solar_north C t)))]) deg))
    /\ (forall (C' : Collaborators) (d' : datetime),
           parse_time C' t = Some d' ->
           get_sun C' (Time C' d') = get_sun C (Time C d) ->
           solar_north C' t = solar_north C t ->
           forall offset : pyarray,
             get_sky_position C' t offset = get_sky_position C t offset).
Proof.
  intros C t d a u Hp Hu.
  split; [exact (nustar_roll_angle C t d a u Hp Hu) |].
  split; [| split; [| split; [| split]]].
  - intros T tm gs. reflexivity.
  - intros C' d' Hp' Hs.
    rewrite (nustar_roll_angle C' t d' a u Hp' Hu), (nustar_roll_angle C t d a u Hp Hu).
    rewrite Hs. reflexivity.
  - intros f off Hf. unfold get_sky_position.
    cbn [parse_time Time get_sun solar_north with_solar_north AstroTime].
    rewrite Hf. reflexivity.
  - intros x y v Hv. exact (sky_position_angle2 C t d x y v Hp Hv).
  - intros C' d' Hp' Hg Hs off. unfold get_sky_position.
    rewrite Hp', Hp. cbv zeta. rewrite Hg, Hs. reflexivity.
Qed.

(** ** Errors *)

Lemma is_zero_true (x : R) : is_zero x = true -> x = 0.
Proof. unfold is_zero. destruct (Req_dec_T x 0); [trivial | discriminate]. Qed.

Lemma is_zero_0 : is_zero 0 = true.
Proof. unfold is_zero. destruct (Req_dec_T 0 0) as [_ | H]; [reflexivity | now elim H]. Qed.

Lemma rotation_kernel (x y c s : R) :
  c * c + s * s = 1 -> x * c - y * s = 0 -> x * s + y * c = 0 -> x = 0 /\ y = 0.
Proof.
  intros H1 Ha Hb.
  assert (Hx : x = c * (x * c - y * s) + s * (x * s + y * c))
    by (transitivity (x * (c * c + s * s)); [rewrite H1 | ]; ring).
  assert (Hy : y = c * (x * s + y * c) - s * (x * c - y * s))
    by (transitivity (y * (c * c + s * s)); [rewrite H1 | ]; ring).
  rewrite Ha, Hb in Hx, Hy. split; [rewrite Hx | rewrite Hy]; ring.
Qed.

Lemma cos2_sin2 (a : R) : cos a * cos a + sin a * sin a = 1.
Proof. pose proof (sin2_cos2 a) as H. unfold Rsqr in H. lra. Qed.

Lemma delta_zero_offset_zero C t dec x y :
  cos (deg2rad dec) <> 0 ->
  delta_ra C t dec x y = 0 -> delta_dec C t x y = 0 -> x = 0 /\ y = 0.
Proof.
  intros Hcd Hra Hdec.
  rewrite delta_ra_eq in Hra. rewrite delta_dec_eq in Hdec.
  apply (rotation_kernel x y (cos (theta C t)) (sin (theta C t)));
    [apply cos2_sin2 | | exact Hdec].
  unfold Rdiv in Hra. apply Rmult_integral in Hra. destruct Hra as [Hra | Hra].
  - lra.
  - elim (Rinv_neq_0_compat _ Hcd). exact Hra.
Qed.

(** A 0-dimensional offset goes through [np.dot] as a scalar factor of the
    rotation matrix, and a 2x2 array of positions comes back. *)
Lemma get_sky_position_scalar C t d x u :
  parse_time C t = Some d -> is_angle u = true ->
  exists rows, get_sky_position C t (Quantity (Arr0 x) u) = Ok (Quantity (Arr2 rows) deg).
Proof.
  intros Hp Hu. unfold get_sky_position. rewrite Hp. run_pipeline.
  rewrite (get_converter_angle u Hu). run_pipeline.
  eexists. reflexivity.
Qed.

(** An all-zero offset without a unit is taken by the final addition. *)
Lemma plain_zero_offset_accepted C t d :
  parse_time C t = Some d ->
  get_sky_position C t (NdArray (Arr1 [0; 0]))
  = Ok (Quantity (Arr1 [ra_deg (get_sun C (Time C d));
                        dec_deg (get_sun C (Time C d))]) deg).
Proof.
  intros Hp. rewrite (get_sky_position_plain2 C t d 0 0 Hp). cbv zeta.
  replace (delta_ra C t (dec_deg (get_sun C (Time C d))) 0 0) with 0
    by (unfold delta_ra; ring).
  replace (delta_dec C t 0 0) with 0 by (unfold delta_dec; ring).
  rewrite is_zero_0. cbn [andb]. apply Ok_vec2_eq; ring.
Qed.

(** C7, as stated, fails: an offset that is a single number of arcseconds
    is not a 2-component vector, and [get_sky_position] returns a value
    for it. *)
Lemma scalar_offset_counterexample :
  is_vec2 (Quantity (Arr0 5) arcsec) = false
  /\ exists p : pyarray,
       get_sky_position notebook_collaborators aim_time_literal (Quantity (Arr0 5) arcsec)
       = Ok p.
Proof.
  split; [reflexivity |].
  destruct (get_sky_position_scalar notebook_collaborators aim_time_literal
              (mk_datetime 2016 7 26 19 53 15 0) 5 arcsec eq_refl eq_refl) as [rows H].
  exists (Quantity (Arr2 rows) deg). exact H.
Qed.

(** ** The dwell midpoint *)

Lemma same_instant_same_outputs C t1 t2 d :
  parse_time C t1 = Some d -> parse_time C t2 = Some d ->
  solar_north C t1 = solar_north C t2 ->
  forall p q : pyarray,
    (get_sky_position C t1 p, get_nustar_roll C t1 q)
    = (get_sky_position C t2 p, get_nustar_roll C t2 q).
Proof.
  intros H1 H2 Hs p q. unfold get_sky_position, get_nustar_roll.
  rewrite H1, H2, Hs. reflexivity.
Qed.

(** C6: the midpoint [start + (end - start) * 0.5] of the dwell
    2016-07-26T19:22:10 .. 2016-07-26T20:24:20 is 2016-07-26T19:53:15
    exactly, and the two functions give for that datetime what they give for
    the literal time '2016-07-26T19:53:15.00'. *)
Theorem dwell_midpoint :
  forall C : Collaborators,
    reads_notebook_times C ->
    keeps_datetime C ->
    solar_north_of_instant C ->
    aim_time_of_dwell C dwell_start dwell_end = Some (mk_datetime 2016 7 26 19 53 15 0)
    /\ usage_dwell C = Some (usage_literal C)
    /\ (forall p q : pyarray,
           (get_sky_position C (TimeObj (mk_datetime 2016 7 26 19 53 15 0)) p,
            get_nustar_roll C (TimeObj (mk_datetime 2016 7 26 19 53 15 0)) q)
           = (get_sky_position C aim_time_literal p,
              get_nustar_roll C aim_time_literal q)).
Proof.
  intros C (Hs & He & Hl) Hk Hn.
  assert (Haim : aim_time_of_dwell C dwell_start dwell_end
                 = Some (mk_datetime 2016 7 26 19 53 15 0)).
  { unfold aim_time_of_dwell. rewrite Hs, He. vm_compute. reflexivity. }
  assert (Hsame : forall p q : pyarray,
             (get_sky_position C (TimeObj (mk_datetime 2016 7 26 19 53 15 0)) p,
              get_nustar_roll C (TimeObj (mk_datetime 2016 7 26 19 53 15 0)) q)
             = (get_sky_position C aim_time_literal p,
                get_nustar_roll C aim_time_literal q)).
  { apply (same_instant_same_outputs C _ _ (mk_datetime 2016 7 26 19 53 15 0)).
    - apply Hk.
    - exact Hl.
    - apply (Hn _ _ (mk_datetime 2016 7 26 19 53 15 0)); [apply Hk | exact Hl]. }
  split; [exact Haim | split; [| exact Hsame]].
  unfold usage_dwell, usage_literal. rewrite Haim. f_equal. apply Hsame.
Qed.

Lemma dwell_midpoint_witness :
  aim_time_of_dwell notebook_collaborators dwell_start dwell_end
  = Some (mk_datetime 2016 7 26 19 53 15 0)
  /\ usage_dwell notebook_collaborators = Some (usage_literal notebook_collaborators).
Proof.
  refine (let H := dwell_midpoint notebook_collaborators _ _ _ in
          conj (proj1 H) (proj1 (proj2 H))).
  - repeat split; reflexivity.
  - intros d. reflexivity.
  - intros t1 t2 d _ _. reflexivity.
Defined.

Lemma solar_north_takes_raw_time_witness :
  get_nustar_roll notebook_collaborators aim_time_literal angle
  = Ok (Quantity (Arr0 (np_mod (88658844320891 / 10000000000000 + to_deg deg 90) 360)) deg)
  /\ (forall (f : time_arg -> R) (offset : pyarray),
         f aim_time_literal = 88658844320891 / 10000000000000 ->
         get_sky_position (with_solar_north notebook_collaborators f) aim_time_literal offset
         = get_sky_position notebook_collaborators aim_time_literal offset).
Proof.
  destruct (solar_north_takes_raw_time notebook_collaborators aim_time_literal
              (mk_datetime 2016 7 26 19 53 15 0) 90 deg eq_refl eq_refl)
    as [H1 [_ [_ [H4 _]]]].
  split; [exact H1 | exact H4].
Defined.

(** * Further properties of the two functions *)

(** ** Sky position: units, inversion, distance, direction *)

Lemma to_deg_rotated_ra (u : unit) (x y c s cd : R) :
  to_deg u (- (x * c - y * s) / cd) = - (to_deg u x * c - to_deg u y * s) / cd.
Proof. unfold to_deg, Rdiv. ring. Qed.

Lemma to_deg_rotated_dec (u : unit) (x y c s : R) :
  to_deg u (x * s + y * c) = to_deg u x * s + to_deg u y * c.
Proof. unfold to_deg. ring. Qed.

Lemma to_deg_inj (u : unit) (a b : R) :
  is_angle u = true -> to_deg u a = to_deg u b -> a = b.
Proof.
  intros Hu H. unfold to_deg in H.
  apply (Rmult_eq_reg_r (scale u / scale deg)); [exact H | apply scale_angle_neq_0, Hu].
Qed.

Lemma scale_angle_pos (u : unit) : is_angle u = true -> 0 < scale u / scale deg.
Proof.
  pose proof PI_RGT_0 as HPI.
  destruct u; simpl; intros H; try discriminate H; unfold Rdiv;
    rewrite ?Rinv_1, ?Rmult_1_r.
  - lra.
  - apply Rmult_lt_0_compat; [lra | apply Rinv_0_lt_compat; lra].
  - apply Rinv_0_lt_compat; lra.
  - apply Rinv_0_lt_compat; lra.
Qed.

(** X1: the sky position depends on the offset only through its size in
    degrees: two 2-component offsets in angular units that are the same
    angles give the same result (an offset in arcminutes and the equivalent
    one in arcseconds, for instance). *)
Theorem get_sky_position_unit_independent :
  forall (C : Collaborators) (t : time_arg) (x y x' y' : R) (u u' : unit),
    is_angle u = true -> is_angle u' = true ->
    to_deg u x = to_deg u' x' ->
    to_deg u y = to_deg u' y' ->
    get_sky_position C t (offset2 x y u) = get_sky_position C t (offset2 x' y' u').
Proof.
  intros C t x y x' y' u u' Hu Hu' Hx Hy.
  destruct (parse_time C t) as [d |] eqn:Hp.
  - rewrite (sky_position_angle2 C t d x y u Hp Hu),
            (sky_position_angle2 C t d x' y' u' Hp Hu').
    cbv zeta. rewrite !to_deg_rotated_ra, !to_deg_rotated_dec, Hx, Hy. reflexivity.
  - unfold get_sky_position. rewrite Hp. reflexivity.
Qed.

Lemma get_sky_position_unit_independent_witness :
  get_sky_position notebook_collaborators aim_time_literal (offset2 1000 150 arcsec)
  = get_sky_position notebook_collaborators aim_time_literal
      (offset2 (1000 / 60) (150 / 60) arcmin).
Proof.
  apply (get_sky_position_unit_independent notebook_collaborators aim_time_literal
           1000 150 (1000 / 60) (150 / 60) arcsec arcmin);
    try reflexivity; unfold to_deg; simpl; lra.
Defined.

(** X2: away from the poles the offset can be read back from the result:
    two 2-component offsets in the same angular unit that give the same sky
    position are equal. *)
Theorem get_sky_position_injective :
  forall (C : Collaborators) (t : time_arg) (d : datetime) (x y x' y' : R) (u : unit),
    parse_time C t = Some d ->
    is_angle u = true ->
    cos (deg2rad (dec_deg (get_sun C (Time C d)))) <> 0 ->
    get_sky_position C t (offset2 x y u) = get_sky_position C t (offset2 x' y' u) ->
    x = x' /\ y = y'.
Proof.
  intros C t d x y x' y' u Hp Hu Hcd H.
  rewrite (sky_position_angle2 C t d x y u Hp Hu),
          (sky_position_angle2 C t d x' y' u Hp Hu) in H.
  cbv zeta in H. injection H as Hra Hdec.
  apply Rplus_eq_reg_l in Hra. apply Rplus_eq_reg_l in Hdec.
  apply (to_deg_inj u _ _ Hu) in Hra. apply (to_deg_inj u _ _ Hu) in Hdec.
  set (c := cos (theta C t)) in *. set (s := sin (theta C t)) in *.
  unfold Rdiv in Hra.
  apply Rmult_eq_reg_r in Hra; [| apply Rinv_neq_0_compat; exact Hcd].
  destruct (rotation_kernel (x - x') (y - y') c s) as [Hx Hy].
  - apply cos2_sin2.
  - replace ((x - x') * c - (y - y') * s)
      with ((x * c - y * s) - (x' * c - y' * s)) by ring. lra.
  - replace ((x - x') * s + (y - y') * c)
      with ((x * s + y * c) - (x' * s + y' * c)) by ring. lra.
  - split; lra.
Qed.

Lemma get_sky_position_injective_witness :
  1000 = 1000 /\ 150 = 150.
Proof.
  apply (get_sky_position_injective notebook_collaborators aim_time_literal
           (mk_datetime 2016 7 26 19 53 15 0) 1000 150 1000 150 arcsec);
    [reflexivity | reflexivity | | reflexivity].
  apply Rgt_not_eq. exact notebook_cos_dec_pos.
Defined.

(** X3: away from the poles the pointing is as far from the centre of the
    Sun as the offset is long: with the RA difference scaled back by
    [cos Dec], the squared differences add up to the squared offset, in
    degrees. *)
Theorem sky_delta_keeps_distance :
  forall (C : Collaborators) (t : time_arg) (d : datetime) (x y : R) (u : unit),
    parse_time C t = Some d ->
    is_angle u = true ->
    cos (deg2rad (dec_deg (get_sun C (Time C d)))) <> 0 ->
    exists a b : R,
      sky_delta C t (offset2 x y u) = Some (a, b)
      /\ (a * cos (deg2rad (dec_deg (get_sun C (Time C d))))) ^ 2 + b ^ 2
         = to_deg u x ^ 2 + to_deg u y ^ 2.
Proof.
  intros C t d x y u Hp Hu Hcd.
  rewrite (sky_delta_angle2 C t d x y u Hp Hu).
  eexists; eexists. split; [reflexivity |].
  rewrite to_deg_rotated_ra, to_deg_rotated_dec.
  set (cd := cos (deg2rad (dec_deg (get_sun C (Time C d))))) in *.
  set (c := cos (theta C t)). set (s := sin (theta C t)).
  set (X := to_deg u x). set (Y := to_deg u y).
  replace (- (X * c - Y * s) / cd * cd) with (- (X * c - Y * s)) by (field; exact Hcd).
  transitivity ((X * X + Y * Y) * (c * c + s * s)); [ring |].
  unfold c, s. rewrite cos2_sin2. ring.
Qed.

Lemma sky_delta_keeps_distance_witness :
  exists a b : R,
    sky_delta notebook_collaborators aim_time_literal (offset2 1000 150 arcsec) = Some (a, b)
    /\ (a * cos (deg2rad (192527 / 10000))) ^ 2 + b ^ 2
       = to_deg arcsec 1000 ^ 2 + to_deg arcsec 150 ^ 2.
Proof.
  apply (sky_delta_keeps_distance notebook_collaborators aim_time_literal
           (mk_datetime 2016 7 26 19 53 15 0) 1000 150 arcsec);
    [reflexivity | reflexivity |].
  apply Rgt_not_eq. exact notebook_cos_dec_pos.
Defined.

Lemma cos_deg_pos (a : R) : -90 < a < 90 -> 0 < cos (deg2rad a).
Proof.
  intros [Hlo Hhi]. pose proof PI_RGT_0 as HPI.
  apply cos_gt_0; unfold deg2rad; nra.
Qed.

(** X4: the sign convention of the code's comments ("+Ra == East and we
    have defined +X = West"). With the solar north pole within 90 degrees of
    celestial north and the Sun off the celestial poles, an offset towards
    +x alone lowers the RA, and an offset towards +y alone raises the Dec. *)
Theorem offset_directions :
  forall (C : Collaborators) (t : time_arg) (d : datetime) (x y : R) (u : unit),
    parse_time C t = Some d ->
    is_angle u = true ->
    -90 < solar_north C t < 90 ->
    -90 < dec_deg (get_sun C (Time C d)) < 90 ->
    0 < x -> 0 < y ->
    (exists a b : R, sky_delta C t (offset2 x 0 u) = Some (a, b) /\ a < 0)
    /\ (exists a b : R, sky_delta C t (offset2 0 y u) = Some (a, b) /\ 0 < b).
Proof.
  intros C t d x y u Hp Hu Hn Hd Hx Hy.
  pose proof (cos_deg_pos _ Hn) as Hc. fold (theta C t) in Hc.
  pose proof (cos_deg_pos _ Hd) as Hcd.
  pose proof (scale_angle_pos u Hu) as Hk.
  split.
  - rewrite (sky_delta_angle2 C t d x 0 u Hp Hu).
    eexists; eexists. split; [reflexivity |].
    unfold to_deg.
    replace (- (x * cos (theta C t) - 0 * sin (theta C t))
             / cos (deg2rad (dec_deg (get_sun C (Time C d)))) * (scale u / scale deg))
      with (- (x * cos (theta C t)
               * (/ cos (deg2rad (dec_deg (get_sun C (Time C d))))
                  * (scale u / scale deg))))
      by (unfold Rdiv; ring).
    apply Ropp_lt_gt_0_contravar.
    apply Rmult_lt_0_compat; [apply Rmult_lt_0_compat; assumption |].
    apply Rmult_lt_0_compat; [apply Rinv_0_lt_compat; exact Hcd | exact Hk].
  - rewrite (sky_delta_angle2 C t d 0 y u Hp Hu).
    eexists; eexists. split; [reflexivity |].
    unfold to_deg.
    replace ((0 * sin (theta C t) + y * cos (theta C t)) * (scale u / scale deg))
      with (y * cos (theta C t) * (scale u / scale deg)) by ring.
    apply Rmult_lt_0_compat; [apply Rmult_lt_0_compat; assumption | exact Hk].
Qed.

Lemma offset_directions_witness :
  (exists a b : R,
      sky_delta notebook_collaborators aim_time_literal (offset2 1000 0 arcsec) = Some (a, b)
      /\ a < 0)
  /\ (exists a b : R,
         sky_delta notebook_collaborators aim_time_literal (offset2 0 150 arcsec) = Some (a, b)
         /\ 0 < b).
Proof.
  apply (offset_directions notebook_collaborators aim_time_literal
           (mk_datetime 2016 7 26 19 53 15 0) 1000 150 arcsec);
    try reflexivity; cbn [solar_north get_sun notebook_collaborators dec_deg]; lra.
Defined.

(** X5: an all-zero 2-component offset given without a unit is not refused:
    the result is the Sun's position. *)
Theorem plain_zero_offset_is_sun :
  forall (C : Collaborators) (t : time_arg) (d : datetime),
    parse_time C t = Some d ->
    get_sky_position C t (NdArray (Arr1 [0; 0]))
    = Ok (Quantity (Arr1 [ra_deg (get_sun C (Time C d));
                          dec_deg (get_sun C (Time C d))]) deg).
Proof. exact plain_zero_offset_accepted. Qed.

Lemma plain_zero_offset_is_sun_witness :
  get_sky_position notebook_collaborators aim_time_literal (NdArray (Arr1 [0; 0]))
  = Ok (Quantity (Arr1 [1263245 / 10000; 192527 / 10000]) deg).
Proof.
  apply (plain_zero_offset_is_sun notebook_collaborators aim_time_literal
           (mk_datetime 2016 7 26 19 53 15 0)); reflexivity.
Defined.

(** ** Roll angle: units, errors, reduction, composition, arrays *)

Lemma np_mod_small (x m : R) : 0 <= x < m -> np_mod x m = x.
Proof.
  intros [Hlo Hhi]. unfold np_mod.
  assert (Hm : 0 < m) by lra.
  rewrite (Zfloor_eq 0 (x / m)).
  - simpl. ring.
  - simpl. split.
    + apply Rmult_le_pos; [exact Hlo | left; apply Rinv_0_lt_compat; exact Hm].
    + rewrite Rplus_0_l. apply (Rmult_lt_reg_r m); [exact Hm |].
      replace (x / m * m) with x by (field; lra). lra.
Qed.

Lemma np_mod_add_multiple (x m : R) (k : Z) :
  m <> 0 -> np_mod (x + m * IZR k) m = np_mod x m.
Proof.
  intros Hm. unfold np_mod.
  replace ((x + m * IZR k) / m) with (x / m + IZR k) by (field; exact Hm).
  rewrite Zfloor_addz, plus_IZR. ring.
Qed.

Lemma np_mod_mod_add (x b m : R) :
  m <> 0 -> np_mod (np_mod x m + b) m = np_mod (x + b) m.
Proof.
  intros Hm. unfold np_mod at 2.
  replace (x - m * IZR (Zfloor (x / m)) + b)
    with (x + b + m * IZR (- Zfloor (x / m))) by (rewrite opp_IZR; ring).
  apply np_mod_add_multiple, Hm.
Qed.

(** X6: the roll depends on the angle only through its size in degrees. *)
Theorem get_nustar_roll_unit_independent :
  forall (C : Collaborators) (t : time_arg) (a a' : R) (u u' : unit),
    is_angle u = true -> is_angle u' = true ->
    to_deg u a = to_deg u' a' ->
    get_nustar_roll C t (Quantity (Arr0 a) u) = get_nustar_roll C t (Quantity (Arr0 a') u').
Proof.
  intros C t a a' u u' Hu Hu' Ha.
  destruct (parse_time C t) as [d |] eqn:Hp.
  - rewrite (nustar_roll_angle C t d a u Hp Hu), (nustar_roll_angle C t d a' u' Hp Hu'), Ha.
    reflexivity.
  - unfold get_nustar_roll. rewrite Hp. reflexivity.
Qed.

Lemma get_nustar_roll_unit_independent_witness :
  get_nustar_roll notebook_collaborators aim_time_literal (Quantity (Arr0 90) deg)
  = get_nustar_roll notebook_collaborators aim_time_literal (Quantity (Arr0 5400) arcmin).
Proof.
  apply (get_nustar_roll_unit_independent notebook_collaborators aim_time_literal
           90 5400 deg arcmin);
    try reflexivity; unfold to_deg; simpl; lra.
Defined.

(** X7: [get_nustar_roll] wants its angle with an angular unit. For a time
    that parses, a bare number other than zero raises a unit error, and so
    does an angle in a unit that is not an angle; a bare zero is taken and
    gives the north-pole angle reduced modulo 360. *)
Theorem get_nustar_roll_unit_errors :
  forall (C : Collaborators) (t : time_arg) (d : datetime),
    parse_time C t = Some d ->
    (forall a : R, a <> 0 ->
                   get_nustar_roll C t (NdArray (Arr0 a)) = Raise UnitConversionError)
    /\ (forall (a : R) (u : unit),
           is_angle u = false ->
           get_nustar_roll C t (Quantity (Arr0 a) u) = Raise UnitConversionError)
    /\ get_nustar_roll C t (NdArray (Arr0 0))
       = Ok (Quantity (Arr0 (np_mod (solar_north C t) 360)) deg).
Proof.
  intros C t d Hp. split; [| split].
  - intros a Ha. unfold get_nustar_roll. rewrite Hp. run_pipeline.
    rewrite deg_not_dimensionless. cbv [all_zero is_zero].
    destruct (Req_dec_T a 0) as [E | _]; [contradiction | reflexivity].
  - intros a u Hu.
    rewrite (get_nustar_roll_quantity C t d a u Hp), (get_converter_not_angle u Hu).
    reflexivity.
  - unfold get_nustar_roll. rewrite Hp. run_pipeline.
    rewrite deg_not_dimensionless. cbv [all_zero]. rewrite is_zero_0.
    run_pipeline. cbv [get_converter physical_type_of physical_type_eqb scale].
    do 3 f_equal. apply np_mod_ext; field.
Qed.

Lemma get_nustar_roll_unit_errors_witness :
  get_nustar_roll notebook_collaborators aim_time_literal (NdArray (Arr0 90))
  = Raise UnitConversionError.
Proof.
  apply (get_nustar_roll_unit_errors notebook_collaborators aim_time_literal
           (mk_datetime 2016 7 26 19 53 15 0) eq_refl). lra.
Defined.

(** X8: no reduction happens when the sum is already in [0, 360): the roll
    is then the north-pole angle plus the angle; one turn is added when the
    sum is in [-360, 0). *)
Theorem get_nustar_roll_reduction :
  forall (C : Collaborators) (t : time_arg) (d : datetime) (a : R) (u : unit),
    parse_time C t = Some d ->
    is_angle u = true ->
    (0 <= solar_north C t + to_deg u a < 360 ->
     get_nustar_roll C t (Quantity (Arr0 a) u)
     = Ok (Quantity (Arr0 (solar_north C t + to_deg u a)) deg))
    /\ (-360 <= solar_north C t + to_deg u a < 0 ->
        get_nustar_roll C t (Quantity (Arr0 a) u)
        = Ok (Quantity (Arr0 (solar_north C t + to_deg u a + 360)) deg)).
Proof.
  intros C t d a u Hp Hu.
  rewrite (nustar_roll_angle C t d a u Hp Hu).
  split; intros Hr; do 3 f_equal.
  - apply np_mod_small, Hr.
  - rewrite <- (np_mod_period (solar_north C t + to_deg u a) 360) by lra.
    apply np_mod_small. lra.
Qed.

Lemma get_nustar_roll_reduction_witness :
  get_nustar_roll notebook_collaborators aim_time_literal angle
  = Ok (Quantity (Arr0 (88658844320891 / 10000000000000 + to_deg deg 90)) deg).
Proof.
  apply (get_nustar_roll_reduction notebook_collaborators aim_time_literal
           (mk_datetime 2016 7 26 19 53 15 0) 90 deg eq_refl eq_refl).
  cbn [solar_north notebook_collaborators]. unfold to_deg. simpl. lra.
Defined.

(** X9: rolls compose: the roll for the angle [a + b] is the roll for [a],
    plus [b], reduced modulo 360 (all in degrees). *)
Theorem get_nustar_roll_compose :
  forall (C : Collaborators) (t : time_arg) (d : datetime) (a b : R),
    parse_time C t = Some d ->
    exists r : R,
      get_nustar_roll C t (Quantity (Arr0 a) deg) = Ok (Quantity (Arr0 r) deg)
      /\ get_nustar_roll C t (Quantity (Arr0 (a + b)) deg)
         = Ok (Quantity (Arr0 (np_mod (r + b) 360)) deg).
Proof.
  intros C t d a b Hp.
  rewrite (nustar_roll_angle C t d a deg Hp eq_refl),
          (nustar_roll_angle C t d (a + b) deg Hp eq_refl).
  eexists. split; [reflexivity |].
  do 3 f_equal. rewrite np_mod_mod_add by lra.
  apply np_mod_ext; [unfold to_deg; simpl; field | reflexivity].
Qed.

Lemma get_nustar_roll_compose_witness :
  exists r : R,
    get_nustar_roll notebook_collaborators aim_time_literal (Quantity (Arr0 90) deg)
    = Ok (Quantity (Arr0 r) deg)
    /\ get_nustar_roll notebook_collaborators aim_time_literal (Quantity (Arr0 (90 + 90)) deg)
       = Ok (Quantity (Arr0 (np_mod (r + 90) 360)) deg).
Proof.
  apply (get_nustar_roll_compose notebook_collaborators aim_time_literal
           (mk_datetime 2016 7 26 19 53 15 0) 90 90). reflexivity.
Defined.

(** X10: [get_nustar_roll] works on an array of angles, one roll per angle:
    for a time that parses and a 1-D array of angles in an angular unit, the
    result is a 1-D array in degrees of the same length, and each entry is
    the roll returned for the matching angle alone. *)
Theorem get_nustar_roll_array :
  forall (C : Collaborators) (t : time_arg) (d : datetime) (l : list R) (u : unit),
    parse_time C t = Some d ->
    is_angle u = true ->
    exists rolls : list R,
      get_nustar_roll C t (Quantity (Arr1 l) u) = Ok (Quantity (Arr1 rolls) deg)
      /\ Forall2 (fun a r =>
                    get_nustar_roll C t (Quantity (Arr0 a) u)
                    = Ok (Quantity (Arr0 r) deg))
                 l rolls.
Proof.
  intros C t d l u Hp Hu.
  exists (map (fun a => np_mod (solar_north C t + to_deg u a) 360) l).
  split.
  - unfold get_nustar_roll. rewrite Hp.
    cbv [add mod_ ufunc2 converters_and_unit bind].
    rewrite (get_converter_angle u Hu).
    cbv [value broadcast map_arr with_unit converters_and_unit bind
         get_converter physical_type_of physical_type_eqb].
    rewrite map_map. do 3 f_equal. apply map_ext. intros a.
    apply np_mod_ext; [unfold to_deg; simpl; field | simpl; field].
  - induction l as [| a l IH]; [constructor |].
    cbn [map]. constructor; [| exact IH].
    exact (nustar_roll_angle C t d a u Hp Hu).
Qed.

Lemma get_nustar_roll_array_witness :
  exists rolls : list R,
    get_nustar_roll notebook_collaborators aim_time_literal
      (Quantity (Arr1 [0; 90; 180; 270]) deg)
    = Ok (Quantity (Arr1 rolls) deg)
    /\ Forall2 (fun a r =>
                  get_nustar_roll notebook_collaborators aim_time_literal
                    (Quantity (Arr0 a) deg)
                  = Ok (Quantity (Arr0 r) deg))
               [0; 90; 180; 270] rolls.
Proof.
  apply (get_nustar_roll_array notebook_collaborators aim_time_literal
           (mk_datetime 2016 7 26 19 53 15 0) [0; 90; 180; 270] deg); reflexivity.
Defined.

(** ** Sky position of several offsets at once *)

Lemma all_ok_map {A B : Type} (g : A -> result B) (h : A -> B) (l : list A) :
  (forall x, g x = Ok (h x)) -> all_ok (map g l) = Ok (map h l).
Proof.
  intros H. induction l as [| x l IH]; [reflexivity |].
  cbn [map all_ok]. rewrite H, IH. reflexivity.
Qed.

Lemma dot_rows (l : list (R * R)) (u : unit) (th : R) :
  l <> [] ->
  dot (Quantity (Arr2 (rows_of l)) u) (rotMatrix th)
  = Ok (Quantity
          (Arr2 (map (fun p => [fst p * cos th + (snd p * - sin th + 0);
                                fst p * sin th + (snd p * cos th + 0)]) l)) u).
Proof.
  intros Hl. destruct l as [| p l]; [contradiction |].
  unfold dot, rotMatrix. cbn [value unit_of np_dot].
  change (ncols (rows_of (p :: l))) with 2%nat.
  cbn [nrows List.length Nat.eqb bind with_unit ncols hd].
  unfold rows_of. rewrite map_map. reflexivity.
Qed.

Lemma mul_rows (f g : R * R -> R) (l : list (R * R)) (u : unit) (k0 k1 : R) :
  mul (Quantity (Arr2 (map (fun p => [f p; g p]) l)) u) (Arr1 [k0; k1])
  = Ok (Quantity (Arr2 (map (fun p => [f p * k0; g p * k1]) l)) u).
Proof.
  unfold mul. cbn [value unit_of broadcast]. rewrite map_map.
  rewrite (all_ok_map _ (fun p => [f p * k0; g p * k1])) by (intros p; reflexivity).
  reflexivity.
Qed.

Lemma add_rows (f g : R * R -> R) (l : list (R * R)) (u : unit) (k r0 d0 : R) :
  get_converter u deg = Some k ->
  add (Quantity (Arr1 [r0; d0]) deg) (Quantity (Arr2 (map (fun p => [f p; g p]) l)) u)
  = Ok (Quantity (Arr2 (map (fun p => [1 * r0 + k * f p; 1 * d0 + k * g p]) l)) deg).
Proof.
  intros Hk. unfold add, ufunc2. cbn [converters_and_unit]. rewrite Hk.
  cbn [bind value broadcast]. rewrite map_map.
  rewrite (all_ok_map _ (fun p => [1 * r0 + k * f p; 1 * d0 + k * g p]))
    by (intros p; reflexivity).
  reflexivity.
Qed.

(** X11: [get_sky_position] works on several offsets at once. Given a
    non-empty (n, 2) array of offsets in an angular unit, it returns an
    (n, 2) array whose every row is the position it returns for the offset
    of that row alone. *)
Theorem get_sky_position_rows :
  forall (C : Collaborators) (t : time_arg) (d : datetime) (l : list (R * R)) (u : unit),
    parse_time C t = Some d ->
    is_angle u = true ->
    l <> [] ->
    exists rows : list (list R),
      get_sky_position C t (Quantity (Arr2 (rows_of l)) u) = Ok (Quantity (Arr2 rows) deg)
      /\ Forall2 (fun p row =>
                    get_sky_position C t (offset2 (fst p) (snd p) u)
                    = Ok (Quantity (Arr1 row) deg))
                 l rows.
Proof.
  intros C t d l u Hp Hu Hl.
  pose proof (get_converter_angle u Hu) as Hk.
  set (sun := get_sun C (Time C d)).
  exists (map (fun p => [1 * ra_deg sun
                         + scale u / scale deg * delta_ra C t (dec_deg sun) (fst p) (snd p);
                         1 * dec_deg sun
                         + scale u / scale deg * delta_dec C t (fst p) (snd p)]) l).
  split.
  - unfold get_sky_position. rewrite Hp. cbv zeta.
    rewrite (dot_rows l u _ Hl). cbn [bind].
    rewrite mul_rows. cbn [bind]. rewrite mul_rows. cbn [bind].
    rewrite (add_rows _ _ l u _ _ _ Hk). reflexivity.
  - clear Hl. induction l as [| p l IH]; [constructor |].
    cbn [map]. constructor; [| exact IH].
    rewrite (get_sky_position_quantity2 C t d (fst p) (snd p) u Hp), Hk. reflexivity.
Qed.

Lemma get_sky_position_rows_witness :
  exists rows : list (list R),
    get_sky_position notebook_collaborators aim_time_literal
      (Quantity (Arr2 (rows_of [(1000, 150); (0, 0)])) arcsec)
    = Ok (Quantity (Arr2 rows) deg)
    /\ Forall2 (fun p row =>
                  get_sky_position notebook_collaborators aim_time_literal
                    (offset2 (fst p) (snd p) arcsec)
                  = Ok (Quantity (Arr1 row) deg))
               [(1000, 150); (0, 0)] rows.
Proof.
  apply (get_sky_position_rows notebook_collaborators aim_time_literal
           (mk_datetime 2016 7 26 19 53 15 0) [(1000, 150); (0, 0)] arcsec);
    [reflexivity | reflexivity | discriminate].
Defined.

(** ** Errors raised for an offset *)

Lemma dot_rows_any (l : list (R * R)) (uo : option unit) (th : R) :
  l <> [] ->
  dot (with_unit uo (Arr2 (rows_of l))) (rotMatrix th)
  = Ok (with_unit uo
          (Arr2 (map (fun p => [fst p * cos th + (snd p * - sin th + 0);
                                fst p * sin th + (snd p * cos th + 0)]) l))).
Proof.
  intros Hl. destruct l as [| p l]; [contradiction |].
  unfold dot, rotMatrix.
  replace (value (with_unit uo (Arr2 (rows_of (p :: l))))) with (Arr2 (rows_of (p :: l)))
    by (destruct uo; reflexivity).
  replace (unit_of (with_unit uo (Arr2 (rows_of (p :: l))))) with uo
    by (destruct uo; reflexivity).
  cbn [np_dot].
  change (ncols (rows_of (p :: l))) with 2%nat.
  cbn [nrows List.length Nat.eqb bind ncols hd].
  unfold rows_of. rewrite map_map. reflexivity.
Qed.

Lemma mul_rows_any (f g : R * R -> R) (l : list (R * R)) (uo : option unit) (k0 k1 : R) :
  mul (with_unit uo (Arr2 (map (fun p => [f p; g p]) l))) (Arr1 [k0; k1])
  = Ok (with_unit uo (Arr2 (map (fun p => [f p * k0; g p * k1]) l))).
Proof.
  unfold mul.
  replace (value (with_unit uo (Arr2 (map (fun p => [f p; g p]) l))))
    with (Arr2 (map (fun p => [f p; g p]) l)) by (destruct uo; reflexivity).
  replace (unit_of (with_unit uo (Arr2 (map (fun p => [f p; g p]) l)))) with uo
    by (destruct uo; reflexivity).
  cbn [broadcast]. rewrite map_map.
  rewrite (all_ok_map _ (fun p => [f p * k0; g p * k1])) by (intros p; reflexivity).
  reflexivity.
Qed.

(** The delta of a (n, 2) offset, before the final addition. *)
Lemma delta_rows C t d (l : list (R * R)) (uo : option unit) :
  l <> [] ->
  (delta_offset <- dot (with_unit uo (Arr2 (rows_of l)))
                       (rotMatrix (deg2rad (solar_north C t))) ;;
   delta_offset <- mul delta_offset
                       (Arr1 [1 / cos (deg2rad (dec_deg (get_sun C (Time C d)))); 1]) ;;
   mul delta_offset (Arr1 [-1; 1]))
  = Ok (with_unit uo
          (Arr2 (map (fun p => [delta_ra C t (dec_deg (get_sun C (Time C d))) (fst p) (snd p);
                                delta_dec C t (fst p) (snd p)]) l))).
Proof.
  intros Hl. rewrite (dot_rows_any l uo _ Hl). cbn [bind].
  rewrite mul_rows_any. cbn [bind]. rewrite mul_rows_any. reflexivity.
Qed.

Lemma add_incompatible_unit (p : ndarray) (a : ndarray) (u : unit) :
  is_angle u = false ->
  add (Quantity p deg) (Quantity a u) = Raise UnitConversionError.
Proof.
  intros Hu. unfold add, ufunc2. cbn [converters_and_unit].
  rewrite (get_converter_not_angle u Hu). reflexivity.
Qed.

Lemma add_plain_not_zero (p : ndarray) (a : ndarray) :
  all_zero a = false ->
  add (Quantity p deg) (NdArray a) = Raise UnitConversionError.
Proof.
  intros Hz. unfold add, ufunc2. cbn [converters_and_unit].
  rewrite deg_not_dimensionless, Hz. reflexivity.
Qed.

Lemma rows_not_all_zero C t dec (l : list (R * R)) :
  cos (deg2rad dec) <> 0 ->
  Exists (fun p => fst p <> 0 \/ snd p <> 0) l ->
  all_zero (Arr2 (map (fun p => [delta_ra C t dec (fst p) (snd p);
                                 delta_dec C t (fst p) (snd p)]) l)) = false.
Proof.
  intros Hcd Hex. cbn [all_zero].
  induction Hex as [p l Hp | p l _ IH].
  - cbn [map forallb].
    destruct (is_zero (delta_ra C t dec (fst p) (snd p))) eqn:Ha; [| reflexivity].
    destruct (is_zero (delta_dec C t (fst p) (snd p))) eqn:Hb; [| reflexivity].
    exfalso.
    destruct (delta_zero_offset_zero C t dec _ _ Hcd (is_zero_true _ Ha) (is_zero_true _ Hb))
      as [Hx Hy].
    destruct Hp as [H | H]; [apply H, Hx | apply H, Hy].
  - cbn [map forallb]. rewrite IH. apply andb_false_r.
Qed.

(** C7, amended: [get_sky_position] checks nothing itself and fails where
    numpy and astropy do. For a time that parses: a 1-D offset whose length
    is not 2, and a 2-D offset whose rows are not of length 2, raise a shape
    error in [np.dot], with or without a unit; an offset in a unit that is
    not an angle never gives a result, whatever its shape, and raises a unit
    error in the final addition when it is a scalar, a 2-component vector
    or an (n, 2) array; an offset without a unit raises a unit error there
    when it is a scalar other than zero, or a 2-component vector or an
    (n, 2) array with an entry other than zero (where [cos Dec <> 0]). The
    failure is the whole outcome: [Raise] carries no value. *)
Theorem get_sky_position_errors :
  forall (C : Collaborators) (t : time_arg) (d : datetime),
    parse_time C t = Some d ->
    (forall (v : list R) (u : option unit),
        List.length v <> 2%nat ->
        get_sky_position C t (with_unit u (Arr1 v)) = Raise ValueError_shapes)
    /\ (forall (rows : list (list R)) (u : option unit),
           rows <> [] ->
           ncols rows <> 2%nat ->
           get_sky_position C t (with_unit u (Arr2 rows)) = Raise ValueError_shapes)
    /\ (forall (a : ndarray) (u : unit),
           is_angle u = false ->
           exists e : exn, get_sky_position C t (Quantity a u) = Raise e)
    /\ (forall (x : R) (u : unit),
           is_angle u = false ->
           get_sky_position C t (Quantity (Arr0 x) u) = Raise UnitConversionError)
    /\ (forall (x y : R) (u : unit),
           is_angle u = false ->
           get_sky_position C t (Quantity (Arr1 [x; y]) u) = Raise UnitConversionError)
    /\ (forall (l : list (R * R)) (u : unit),
           l <> [] ->
           is_angle u = false ->
           get_sky_position C t (Quantity (Arr2 (rows_of l)) u) = Raise UnitConversionError)
    /\ (forall x : R,
           x <> 0 ->
           get_sky_position C t (NdArray (Arr0 x)) = Raise UnitConversionError)
    /\ (forall x y : R,
           cos (deg2rad (dec_deg (get_sun C (Time C d)))) <> 0 ->
           x <> 0 \/ y <> 0 ->
           get_sky_position C t (NdArray (Arr1 [x; y])) = Raise UnitConversionError)
    /\ (forall l : list (R * R),
           cos (deg2rad (dec_deg (get_sun C (Time C d)))) <> 0 ->
           Exists (fun p => fst p <> 0 \/ snd p <> 0) l ->
           get_sky_position C t (NdArray (Arr2 (rows_of l))) = Raise UnitConversionError).
Proof.
  intros C t d Hp. repeat apply conj.
  - intros v u Hv. unfold get_sky_position. rewrite Hp.
    apply Nat.eqb_neq in Hv.
    destruct u; cbv [dot with_unit value np_dot rotMatrix nrows bind];
      change (List.length [[cos (deg2rad (solar_north C t)); sin (deg2rad (solar_north C t))];
                           [- sin (deg2rad (solar_north C t)); cos (deg2rad (solar_north C t))]])
        with 2%nat;
      rewrite Hv; reflexivity.
  - intros rows u _ Hr. unfold get_sky_position. rewrite Hp.
    apply Nat.eqb_neq in Hr.
    destruct u; cbv [dot with_unit value np_dot rotMatrix nrows bind];
      change (List.length [[cos (deg2rad (solar_north C t)); sin (deg2rad (solar_north C t))];
                           [- sin (deg2rad (solar_north C t)); cos (deg2rad (solar_north C t))]])
        with 2%nat;
      rewrite Hr; reflexivity.
  - intros a u Hu. unfold get_sky_position. rewrite Hp. cbv zeta.
    unfold dot, mul. cbn [value unit_of].
    destruct (np_dot a _) as [r1 | e1]; cbn [bind with_unit value unit_of];
      [| eexists; reflexivity].
    destruct (broadcast Rmult r1 _) as [r2 | e2]; cbn [bind with_unit value unit_of];
      [| eexists; reflexivity].
    destruct (broadcast Rmult r2 _) as [r3 | e3]; cbn [bind with_unit value unit_of];
      [| eexists; reflexivity].
    rewrite (add_incompatible_unit _ r3 u Hu). eexists; reflexivity.
  - intros x u Hu. unfold get_sky_position. rewrite Hp. run_pipeline.
    rewrite (get_converter_not_angle u Hu). reflexivity.
  - intros x y u Hu.
    change (Quantity (Arr1 [x; y]) u) with (offset2 x y u).
    rewrite (get_sky_position_quantity2 C t d x y u Hp), (get_converter_not_angle u Hu).
    reflexivity.
  - intros l u Hl Hu. unfold get_sky_position. rewrite Hp. cbv zeta.
    pose proof (delta_rows C t d l (Some u) Hl) as Hd. cbn [with_unit] in Hd.
    unfold bind in Hd |- *.
    destruct (dot (Quantity (Arr2 (rows_of l)) u) _) as [p1 | e1]; [| discriminate Hd].
    destruct (mul p1 _) as [p2 | e2]; [| discriminate Hd].
    rewrite Hd. apply add_incompatible_unit, Hu.
  - intros x Hx. unfold get_sky_position. rewrite Hp. run_pipeline.
    rewrite deg_not_dimensionless. cbv [all_zero forallb].
    destruct (is_zero (x * sin (deg2rad (solar_north C t)) * 1 * 1)) eqn:Hb;
      [| rewrite !andb_false_r; reflexivity].
    destruct (is_zero (x * cos (deg2rad (solar_north C t)) * 1 * 1)) eqn:Hd;
      [| rewrite !andb_false_r; reflexivity].
    exfalso. apply Hx.
    apply is_zero_true in Hb. apply is_zero_true in Hd.
    pose proof (cos2_sin2 (deg2rad (solar_north C t))) as H1.
    set (c := cos (deg2rad (solar_north C t))) in *.
    set (s := sin (deg2rad (solar_north C t))) in *.
    transitivity (x * (c * c + s * s)); [rewrite H1; ring |].
    replace (x * (c * c + s * s)) with (c * (x * c * 1 * 1) + s * (x * s * 1 * 1)) by ring.
    rewrite Hb, Hd. ring.
  - intros x y Hcd Hxy.
    rewrite (get_sky_position_plain2 C t d x y Hp). cbv zeta.
    destruct (is_zero (delta_ra C t (dec_deg (get_sun C (Time C d))) x y)) eqn:Ha;
      [| reflexivity].
    destruct (is_zero (delta_dec C t x y)) eqn:Hb; [| reflexivity].
    exfalso.
    destruct (delta_zero_offset_zero C t _ x y Hcd (is_zero_true _ Ha) (is_zero_true _ Hb))
      as [Hx Hy].
    destruct Hxy as [H | H]; [apply H, Hx | apply H, Hy].
  - intros l Hcd Hex.
    assert (Hl : l <> []) by (intros ->; inversion Hex).
    unfold get_sky_position. rewrite Hp. cbv zeta.
    pose proof (delta_rows C t d l None Hl) as Hd. cbn [with_unit] in Hd.
    unfold bind in Hd |- *.
    destruct (dot (NdArray (Arr2 (rows_of l))) _) as [p1 | e1]; [| discriminate Hd].
    destruct (mul p1 _) as [p2 | e2]; [| discriminate Hd].
    rewrite Hd. apply add_plain_not_zero, rows_not_all_zero; assumption.
Qed.

Lemma get_sky_position_errors_witness :
  get_sky_position notebook_collaborators aim_time_literal
    (Quantity (Arr1 [1000; 150; 0]) arcsec) = Raise ValueError_shapes
  /\ get_sky_position notebook_collaborators aim_time_literal
       (Quantity (Arr1 [1000; 150]) m) = Raise UnitConversionError
  /\ get_sky_position notebook_collaborators aim_time_literal
       (Quantity (Arr0 5) m) = Raise UnitConversionError
  /\ get_sky_position notebook_collaborators aim_time_literal
       (NdArray (Arr0 5)) = Raise UnitConversionError.
Proof.
  destruct (get_sky_position_errors notebook_collaborators aim_time_literal
              (mk_datetime 2016 7 26 19 53 15 0) eq_refl)
    as (H1 & _ & _ & H4 & H5 & _ & H7 & _).
  split; [| split; [| split]].
  - apply (H1 [1000; 150; 0] (Some arcsec)). discriminate.
  - apply (H5 1000 150 m). reflexivity.
  - apply (H4 5 m). reflexivity.
  - apply (H7 5). lra.
Defined.

(** ** The middle of a dwell *)

Section Midpoint.
Import PyDatetime.
Local Open Scope Z_scope.

Lemma timedelta_of_spec (d s u : Z) :
  0 <= td_seconds (timedelta_of d s u) < 86400
  /\ 0 <= td_microseconds (timedelta_of d s u) < 1000000
  /\ _to_microseconds (timedelta_of d s u) = (d * 86400 + s) * 1000000 + u.
Proof.
  unfold timedelta_of, _to_microseconds. cbn [td_days td_seconds td_microseconds].
  Z.to_euclidean_division_equations. lia.
Qed.

Lemma _divide_and_round_half (D : Z) :
  0 <= D ->
  0 <= _divide_and_round D 2 <= D /\ -1 <= 2 * _divide_and_round D 2 - D <= 1.
Proof.
  intros HD. unfold _divide_and_round. cbn [Z.ltb Z.compare].
  destruct (2 <? D mod 2 * 2) eqn:E1; cbn [orb].
  - apply Z.ltb_lt in E1. Z.to_euclidean_division_equations. lia.
  - destruct ((D mod 2 * 2 =? 2) && (D / 2 mod 2 =? 1)) eqn:E2.
    + apply andb_prop in E2. destruct E2 as [E2 E3].
      apply Z.eqb_eq in E2. apply Z.eqb_eq in E3.
      Z.to_euclidean_division_equations. lia.
    + Z.to_euclidean_division_equations. lia.
Qed.

Lemma datetime_sub_same_date (s e : datetime) :
  same_date e s ->
  _to_microseconds (datetime_sub e s) = time_of_day_us e - time_of_day_us s.
Proof.
  intros (Hy & Hm & Hd). unfold datetime_sub.
  destruct (timedelta_of_spec (toordinal e - toordinal s)
              (second e + minute e * 60 + hour e * 3600
               - (second s + minute s * 60 + hour s * 3600))
              (microsecond e - microsecond s)) as (_ & _ & H).
  rewrite H. unfold toordinal, time_of_day_us. rewrite Hy, Hm, Hd. ring.
Qed.

Lemma datetime_add_within_day (s : datetime) (X : Z) :
  calendar_date s -> valid_time s ->
  0 <= X -> time_of_day_us s + X < 86400 * 1000000 ->
  exists m : datetime,
    datetime_add s (timedelta_of 0 0 X) = Some m
    /\ same_date m s
    /\ time_of_day_us m = time_of_day_us s + X
    /\ valid_time m.
Proof.
  intros [Hrange Hord] (Hh & Hmi & Hs & Hus) HX Hday.
  unfold datetime_add.
  destruct (timedelta_of_spec 0 0 X) as (Hb1 & Hb2 & Hb3).
  set (half := timedelta_of 0 0 X) in *.
  destruct (timedelta_of_spec (toordinal s + td_days half)
              (hour s * 3600 + minute s * 60 + second s + td_seconds half)
              (microsecond s + td_microseconds half)) as (Hd1 & Hd2 & Hd3).
  set (delta := timedelta_of (toordinal s + td_days half)
                  (hour s * 3600 + minute s * 60 + second s + td_seconds half)
                  (microsecond s + td_microseconds half)) in *.
  cbv zeta.
  unfold _to_microseconds in Hb3, Hd3. unfold time_of_day_us in Hday.
  assert (Hdays : td_days delta = toordinal s) by lia.
  rewrite Hdays.
  replace ((0 <? toordinal s) && (toordinal s <=? _MAXORDINAL)) with true
    by (symmetry; apply andb_true_intro; split;
        [apply Z.ltb_lt | apply Z.leb_le]; lia).
  rewrite Hord.
  eexists. split; [reflexivity |].
  unfold same_date, valid_time, time_of_day_us.
  cbn [year month day hour minute second microsecond].
  repeat split; try reflexivity; Z.to_euclidean_division_equations; lia.
Qed.

End Midpoint.

(** X12: the aim time of the second usage cell, for a dwell that starts and
    ends on the same calendar day (start not after end). The cell gives a
    time on that day, between the start and the end, whose time of day is
    the start's plus half the length of the dwell rounded to a whole
    microsecond (half-way cases to the even one); twice the distance to the
    start misses the length of the dwell by one microsecond at most. *)
Theorem aim_time_same_day :
  forall (C : Collaborators) (ts te : time_arg) (s e : datetime),
    parse_time C ts = Some s ->
    parse_time C te = Some e ->
    calendar_date s -> valid_time s -> valid_time e ->
    same_date e s ->
    (time_of_day_us s <= time_of_day_us e)%Z ->
    exists m : datetime,
      aim_time_of_dwell C ts te = Some m
      /\ same_date m s
      /\ valid_time m
      /\ (time_of_day_us m
          = time_of_day_us s
            + PyDatetime._divide_and_round (time_of_day_us e - time_of_day_us s) 2)%Z
      /\ (time_of_day_us s <= time_of_day_us m <= time_of_day_us e)%Z
      /\ (-1 <= 2 * (time_of_day_us m - time_of_day_us s)
                - (time_of_day_us e - time_of_day_us s) <= 1)%Z.
Proof.
  intros C ts te s e Hs He Hcal Hvs Hve Hsame Hle.
  unfold aim_time_of_dwell. rewrite Hs, He.
  unfold PyDatetime.timedelta_mul_float.
  rewrite (datetime_sub_same_date s e Hsame), Z.mul_1_r.
  destruct (_divide_and_round_half (time_of_day_us e - time_of_day_us s)) as [Hr1 Hr2];
    [lia |].
  assert (Hday : (time_of_day_us e < 86400 * 1000000)%Z).
  { destruct Hve as (H1 & H2 & H3 & H4). unfold time_of_day_us. lia. }
  destruct (datetime_add_within_day s
              (PyDatetime._divide_and_round (time_of_day_us e - time_of_day_us s) 2)
              Hcal Hvs) as (m & Hm & Hd & Ht & Hv); [lia | lia |].
  exists m. repeat split; try assumption; try apply Hd; try apply Hv; lia.
Qed.

Lemma aim_time_same_day_witness :
  exists m : datetime,
    aim_time_of_dwell notebook_collaborators dwell_start dwell_end = Some m
    /\ same_date m (mk_datetime 2016 7 26 19 22 10 0)
    /\ valid_time m
    /\ (time_of_day_us m
        = time_of_day_us (mk_datetime 2016 7 26 19 22 10 0)
          + PyDatetime._divide_and_round
              (time_of_day_us (mk_datetime 2016 7 26 20 24 20 0)
               - time_of_day_us (mk_datetime 2016 7 26 19 22 10 0)) 2)%Z
    /\ (time_of_day_us (mk_datetime 2016 7 26 19 22 10 0) <= time_of_day_us m
        <= time_of_day_us (mk_datetime 2016 7 26 20 24 20 0))%Z
    /\ (-1 <= 2 * (time_of_day_us m - time_of_day_us (mk_datetime 2016 7 26 19 22 10 0))
              - (time_of_day_us (mk_datetime 2016 7 26 20 24 20 0)
                 - time_of_day_us (mk_datetime 2016 7 26 19 22 10 0)) <= 1)%Z.
Proof.
  apply (aim_time_same_day notebook_collaborators dwell_start dwell_end
           (mk_datetime 2016 7 26 19 22 10 0) (mk_datetime 2016 7 26 20 24 20 0)).
  - reflexivity.
  - reflexivity.
  - split; [vm_compute; split; [reflexivity | discriminate] | vm_compute; reflexivity].
  - unfold valid_time. cbn. lia.
  - unfold valid_time. cbn. lia.
  - repeat split.
  - vm_compute. discriminate.
Defined.

(** ** The north-pole angle counts modulo a full turn *)

Lemma deg2rad_turn (x : R) : deg2rad (x + 360) = deg2rad x + 2 * PI.
Proof. unfold deg2rad. field. Qed.

Lemma cos_deg_turn (x : R) : cos (deg2rad (x + 360)) = cos (deg2rad x).
Proof. rewrite deg2rad_turn, cos_plus, cos_2PI, sin_2PI. ring. Qed.

Lemma sin_deg_turn (x : R) : sin (deg2rad (x + 360)) = sin (deg2rad x).
Proof. rewrite deg2rad_turn, sin_plus, cos_2PI, sin_2PI. ring. Qed.

(** X13: a north-pole angle reported one turn higher changes nothing: the
    sky position is the same for every offset, and so is the roll. *)
Theorem north_angle_modulo_turn :
  forall (C : Collaborators) (f : time_arg -> R) (t : time_arg),
    f t = solar_north C t + 360 ->
    (forall offset : pyarray,
        get_sky_position (with_solar_north C f) t offset = get_sky_position C t offset)
    /\ (forall (a : R) (u : unit),
           is_angle u = true ->
           get_nustar_roll (with_solar_north C f) t (Quantity (Arr0 a) u)
           = get_nustar_roll C t (Quantity (Arr0 a) u)).
Proof.
  intros C f t Hf. split.
  - intros off. unfold get_sky_position.
    cbn [parse_time Time get_sun solar_north with_solar_north AstroTime].
    rewrite Hf. unfold rotMatrix. rewrite cos_deg_turn, sin_deg_turn. reflexivity.
  - intros a u Hu.
    destruct (parse_time C t) as [d |] eqn:Hp.
    + rewrite (nustar_roll_angle (with_solar_north C f) t d a u Hp Hu),
              (nustar_roll_angle C t d a u Hp Hu).
      cbn [solar_north with_solar_north]. rewrite Hf. do 3 f_equal.
      replace (solar_north C t + 360 + to_deg u a)
        with (solar_north C t + to_deg u a + 360) by ring.
      apply np_mod_period. lra.
    + unfold get_nustar_roll. cbn [parse_time with_solar_north]. rewrite Hp. reflexivity.
Qed.

Lemma north_angle_modulo_turn_witness :
  (forall offset : pyarray,
      get_sky_position
        (with_solar_north notebook_collaborators
           (fun _ => 88658844320891 / 10000000000000 + 360))
        aim_time_literal offset
      = get_sky_position notebook_collaborators aim_time_literal offset)
  /\ (forall (a : R) (u : unit),
         is_angle u = true ->
         get_nustar_roll
           (with_solar_north notebook_collaborators
              (fun _ => 88658844320891 / 10000000000000 + 360))
           aim_time_literal (Quantity (Arr0 a) u)
         = get_nustar_roll notebook_collaborators aim_time_literal (Quantity (Arr0 a) u)).
Proof.
  apply (north_angle_modulo_turn notebook_collaborators
           (fun _ => 88658844320891 / 10000000000000 + 360) aim_time_literal).
  reflexivity.
Defined.

(** ** The worked example *)

Lemma PI_bounds : 3.1415 < PI < 3.1421.
Proof.
  pose proof (PI_2_3_7_ineq 1) as [Hlo Hhi].
  unfold PI_2_3_7_tg, tg_alt, Ratan_seq in Hlo, Hhi.
  cbn [sum_f_R0 Nat.mul Nat.add] in Hlo, Hhi.
  rewrite !INR_IZR_INZ in Hlo, Hhi.
  cbn [Z.of_nat Pos.of_succ_nat Pos.succ pow] in Hlo, Hhi.
  replace (INR 7) with 7 in Hlo by (simpl; lra).
  lra.
Qed.

Lemma cos_taylor (a : R) :
  -2 <= a <= 2 ->
  1 - a * a / 2 <= cos a <= 1 - a * a / 2 + a * a * (a * a) / 24.
Proof.
  intros [Hlo Hhi]. pose proof (pre_cos_bound a 0 Hlo Hhi) as [H1 H2].
  unfold cos_approx, cos_term in H1, H2.
  cbn [sum_f_R0 Nat.mul Nat.add fact pow] in H1, H2.
  replace (INR 1) with 1 in H1, H2 by reflexivity.
  replace (INR 2) with 2 in H1, H2 by (simpl; lra).
  replace (INR 24) with 24 in H2 by (rewrite INR_IZR_INZ; reflexivity).
  split; [eapply Rle_trans; [| exact H1] | eapply Rle_trans; [exact H2 |]];
    right; field.
Qed.

Lemma sin_taylor (a : R) :
  0 <= a <= 4 ->
  a - a * a * a / 6 <= sin a <= a - a * a * a / 6 + a * a * a * (a * a) / 120.
Proof.
  intros [Hlo Hhi]. pose proof (pre_sin_bound a 0 Hlo Hhi) as [H1 H2].
  unfold sin_approx, sin_term in H1, H2.
  cbn [sum_f_R0 Nat.mul Nat.add fact pow] in H1, H2.
  replace (INR 1) with 1 in H1, H2 by reflexivity.
  replace (INR 6) with 6 in H1, H2 by (rewrite INR_IZR_INZ; reflexivity).
  replace (INR 120) with 120 in H2 by (rewrite INR_IZR_INZ; reflexivity).
  split; [eapply Rle_trans; [| exact H1] | eapply Rle_trans; [exact H2 |]];
    right; field.
Qed.

Lemma deg2rad_bounds (x lo hi : R) :
  0 <= lo -> lo <= x <= hi ->
  lo * (3.1415 / 180) <= deg2rad x <= hi * (3.1421 / 180).
Proof.
  intros H0 [Hlo Hhi]. pose proof PI_bounds as [P1 P2]. unfold deg2rad. nra.
Qed.

Lemma north_trig_bounds (th : R) :
  0.1547 <= th <= 0.1548 ->
  0.98801 <= cos th <= 0.98806 /\ 0.15408 <= sin th <= 0.15419.
Proof.
  intros [Hlo Hhi].
  destruct (cos_taylor th) as [C1 C2]; [lra |].
  destruct (sin_taylor th) as [S1 S2]; [lra |].
  assert (Q : 0.1547 * 0.1547 <= th * th <= 0.1548 * 0.1548) by nra.
  assert (Q3 : 0.1547 * 0.1547 * 0.1547 <= th * th * th <= 0.1548 * 0.1548 * 0.1548) by nra.
  assert (Q4 : th * th * (th * th) <= 0.1548 * 0.1548 * (0.1548 * 0.1548)) by nra.
  assert (Q5 : th * th * th * (th * th)
               <= 0.1548 * 0.1548 * 0.1548 * (0.1548 * 0.1548)) by nra.
  repeat split; lra.
Qed.

Lemma dec_cos_bounds (a : R) :
  0.3360 <= a <= 0.3361 -> 0.94351 <= cos a <= 0.94409.
Proof.
  intros [Hlo Hhi].
  destruct (cos_taylor a) as [C1 C2]; [lra |].
  assert (Q : 0.3360 * 0.3360 <= a * a <= 0.3361 * 0.3361) by nra.
  assert (Q4 : a * a * (a * a) <= 0.3361 * 0.3361 * (0.3361 * 0.3361)) by nra.
  split; lra.
Qed.

Lemma inverse_bounds (cd : R) :
  0.94351 <= cd <= 0.94409 -> 1.0592 <= / cd <= 1.0599.
Proof.
  intros [E1 E2].
  assert (Hcd : 0 < cd) by lra.
  pose proof (Rinv_0_lt_compat cd Hcd) as Hi0.
  assert (Hone : cd * / cd = 1) by (apply Rinv_r; lra).
  split; nra.
Qed.

Lemma product_bounds (N i : R) :
  964.8815 <= N <= 964.948 -> 1.0592 <= i <= 1.0599 ->
  1022 <= N * i <= 1022.75.
Proof.
  intros [N1 N2] [I1 I2].
  assert (A : 0 <= (N - 964.8815) * (i - 1.0592)) by (apply Rmult_le_pos; lra).
  assert (B : 0 <= (964.948 - N) * i) by (apply Rmult_le_pos; lra).
  split; nra.
Qed.

(** C8: the worked example. At the time 2016-07-26T19:53:15.00, with
    ephemeris data as in the run recorded in the notebook (north-pole angle
    between 8.8658 and 8.8660 degrees, the Sun at RA 126.3244 .. 126.3246 and
    Dec 19.2526 .. 19.2528 degrees), the offset (1000, 150) arcsec gives a
    sky position within 0.001 degree of (126.0405, 19.3367), and the angle
    90 degrees a roll within 0.001 degree of 98.8659. *)
Theorem worked_example :
  forall (C : Collaborators) (d : datetime),
    parse_time C aim_time_literal = Some d ->
    8.8658 <= solar_north C aim_time_literal <= 8.8660 ->
    126.3244 <= ra_deg (get_sun C (Time C d)) <= 126.3246 ->
    19.2526 <= dec_deg (get_sun C (Time C d)) <= 19.2528 ->
    exists ra dec roll : R,
      get_sky_position C aim_time_literal offset = Ok (Quantity (Arr1 [ra; dec]) deg)
      /\ Rabs (ra - 126.0405) < 0.001
      /\ Rabs (dec - 19.3367) < 0.001
      /\ get_nustar_roll C aim_time_literal angle = Ok (Quantity (Arr0 roll) deg)
      /\ Rabs (roll - 98.8659) < 0.001.
Proof.
  intros C d Hp Hn Hra Hdec.
  change offset with (offset2 1000 150 arcsec).
  rewrite (sky_position_angle2 C aim_time_literal d 1000 150 arcsec Hp eq_refl).
  unfold angle.
  rewrite (nustar_roll_angle C aim_time_literal d 90 deg Hp eq_refl).
  cbv zeta.
  do 3 eexists. split; [reflexivity |].
  destruct (deg2rad_bounds _ 8.8658 8.8660 ltac:(lra) Hn) as [T1 T2].
  fold (theta C aim_time_literal) in T1, T2.
  destruct (north_trig_bounds (theta C aim_time_literal)) as [[C1 C2] [S1 S2]]; [lra |].
  destruct (deg2rad_bounds _ 19.2526 19.2528 ltac:(lra) Hdec) as [D1 D2].
  destruct (dec_cos_bounds (deg2rad (dec_deg (get_sun C (Time C d))))) as [E1 E2]; [lra |].
  set (c := cos (theta C aim_time_literal)) in *.
  set (s := sin (theta C aim_time_literal)) in *.
  set (cd := cos (deg2rad (dec_deg (get_sun C (Time C d))))) in *.
  pose proof (inverse_bounds cd (conj E1 E2)) as Hi.
  assert (HN : 964.8815 <= 1000 * c - 150 * s <= 964.948) by lra.
  pose proof (product_bounds _ _ HN Hi) as HP.
  split; [| split; [| split; [reflexivity |]]].
  - unfold to_deg, Rdiv. cbn [scale].
    replace (- (1000 * c - 150 * s) * / cd * (/ 3600 * / 1))
      with (- ((1000 * c - 150 * s) * / cd) / 3600) by (unfold Rdiv; field; lra).
    apply Rabs_def1; lra.
  - unfold to_deg. cbn [scale]. apply Rabs_def1; lra.
  - rewrite np_mod_small by (unfold to_deg; cbn [scale]; lra).
    unfold to_deg. cbn [scale]. apply Rabs_def1; lra.
Qed.

Lemma worked_example_witness :
  exists ra dec roll : R,
    get_sky_position notebook_collaborators aim_time_literal offset
    = Ok (Quantity (Arr1 [ra; dec]) deg)
    /\ Rabs (ra - 126.0405) < 0.001
    /\ Rabs (dec - 19.3367) < 0.001
    /\ get_nustar_roll notebook_collaborators aim_time_literal angle
       = Ok (Quantity (Arr0 roll) deg)
    /\ Rabs (roll - 98.8659) < 0.001.
Proof.
  apply (worked_example notebook_collaborators (mk_datetime 2016 7 26 19 53 15 0));
    [reflexivity | | |];
    cbn [solar_north get_sun notebook_collaborators ra_deg dec_deg]; lra.
Defined.
